(** * ArcGPT: the chat dispatch loop of [aiadvanced.py]

    A shallow embedding of the configuration loader, the worker that calls
    the generative-text service, and the chat window's message handlers,
    followed by the properties of the chat loop.

    Python values that come out of [json.load] or go into the service are
    kept as JSON values; dictionaries are finite maps with string keys;
    the Qt widgets are reduced to the attributes the handlers read and
    write (text, enabled flag, visibility, the [isError] property and the
    pending single-shot timers). *)

From Stdlib Require Import Ascii String.
From stdpp Require Import gmap strings list fin_maps.

(** ** Python string operations used by the program

    Strings are sequences of 8-bit characters read as Latin-1 code points.
    The markers the program searches for are ASCII, and no Latin-1
    character outside A-Z lower-cases to an ASCII letter, so [lower] below
    decides the same membership tests as [str.lower]. *)

Module Str.

(** [needle in hay]. *)
Fixpoint contains (needle hay : string) : bool :=
  String.prefix needle hay ||
  match hay with
  | EmptyString => false
  | String _ rest => contains needle rest
  end.

Definition lower_char (c : ascii) : ascii :=
  let n := nat_of_ascii c in
  if (65 <=? n) && (n <=? 90) then ascii_of_nat (n + 32) else c.

(** [s.lower()]. *)
Fixpoint lower (s : string) : string :=
  match s with
  | EmptyString => EmptyString
  | String c rest => String (lower_char c) (lower rest)
  end.

(** [c.isspace()] on code points below 256. *)
Definition isspace (c : ascii) : bool :=
  let n := nat_of_ascii c in
  ((9 <=? n) && (n <=? 13)) || ((28 <=? n) && (n <=? 32))
  || (n =? 133) || (n =? 160).

Fixpoint lstrip (s : string) : string :=
  match s with
  | EmptyString => EmptyString
  | String c rest => if isspace c then lstrip rest else s
  end.

Fixpoint rstrip (s : string) : string :=
  match s with
  | EmptyString => EmptyString
  | String c rest =>
      match rstrip rest with
      | EmptyString => if isspace c then EmptyString else String c EmptyString
      | kept => String c kept
      end
  end.

(** [s.strip()]. *)
Definition strip (s : string) : string := rstrip (lstrip s).

(** [not s] for a string. *)
Definition is_empty (s : string) : bool :=
  match s with
  | EmptyString => true
  | String _ _ => false
  end.

(** A string made of whitespace only (the empty string included). *)
Fixpoint all_space (s : string) : bool :=
  match s with
  | EmptyString => true
  | String c rest => isspace c && all_space rest
  end.

End Str.

(** ** JSON values and Python truthiness *)

#[local] Set Warnings "-register-all".

Inductive json : Type :=
  | JNull
  | JBool (b : bool)
  | JNum (n : Z)
  | JStr (s : string)
  | JList (items : list json)
  | JDict (fields : list (string * json)).

(** [bool(v)]. *)
Definition truthy (v : json) : bool :=
  match v with
  | JNull => false
  | JBool b => b
  | JNum n => negb (n =? 0)%Z
  | JStr s => negb (Str.is_empty s)
  | JList items => match items with [] => false | _ => true end
  | JDict fields => match fields with [] => false | _ => true end
  end.

(** [d.get(k)]: [None] (here [JNull]) when the key is absent. *)
Definition dict_get (d : gmap string json) (k : string) : json :=
  default JNull (d !! k).

(** [v == s] for a string literal [s]. *)
Definition json_is_str (v : json) (s : string) : bool :=
  match v with
  | JStr t => String.eqb t s
  | _ => false
  end.

(** ** Configuration handling *)

Definition DEFAULT_ACCENT : string := "#3498db".

Definition DEFAULT_CONFIG : gmap string json :=
  <["api_key" := JStr ""]>
    (<["theme" := JStr "light"]>
      (<["accent_color" := JStr DEFAULT_ACCENT]> ∅)).

(** What [load_config] finds at the configuration path.  A JSON document
    that is well formed but not an object is left out: [dict.update]
    would raise on it and [load_config] does not catch that. *)
Inductive config_file : Type :=
  | FileMissing
  | FileMalformed
  | FileObject (config_data : gmap string json).

Section Program.

(** Set once at import time: whether [google.generativeai] could be
    imported. *)
Variable GOOGLE_AI_AVAILABLE : bool.

(** The [QColor] constructor belongs to Qt.  Given a string it builds a
    colour object, an invalid one when the name does not parse, and does
    not raise: this is why [apply_styles] and [set_color_preview] test
    [isValid()] on the result.  Whether it raises on a value of another
    type is left to [qcolor_rejects]. *)
Variable qcolor_rejects : json -> bool.

Definition QColor_raises (v : json) : bool :=
  match v with
  | JStr _ => false
  | other => qcolor_rejects other
  end.

(** [load_config()].  [merged_config.update(config_data)] is the
    left-biased union; the bare [except] also covers a missing key. *)
Definition load_config (f : config_file) : gmap string json :=
  match f with
  | FileMissing => DEFAULT_CONFIG
  | FileMalformed => DEFAULT_CONFIG
  | FileObject config_data =>
      let merged_config := config_data ∪ DEFAULT_CONFIG in
      match merged_config !! "accent_color" with
      | Some v =>
          if QColor_raises v
          then <["accent_color" := JStr DEFAULT_ACCENT]> merged_config
          else merged_config
      | None => <["accent_color" := JStr DEFAULT_ACCENT]> merged_config
      end
  end.

(** ** The API worker *)

(** One message of the conversation as the program stores it:
    [{'role': role, 'parts': [text]}]. *)
Definition turn (role text : string) : gmap string json :=
  <["role" := JStr role]> (<["parts" := JList [JStr text]]> ∅).

Record Part : Type := {
  part_text : option string            (* [None]: the part has no [text] *)
}.

Record Candidate : Type := {
  content_parts : list Part            (* [candidate.content.parts] *)
}.

Record Response : Type := {
  text : option string;                (* [None]: [response.text] raises ValueError *)
  candidates : list Candidate;         (* [[]] when absent or empty *)
  block_reason : option string         (* [prompt_feedback.block_reason], [None] when absent or falsy *)
}.

(** The two completion calls of the service. *)
Inductive api_call : Type :=
  | generate_content (key : json) (prompt : string)
  | chat_send_message (key : json) (seed : list (gmap string json)) (prompt : string).

Inductive call_result : Type :=
  | Returns (response : option Response)   (* [None]: a falsy response *)
  | Raises (e : string).                   (* [str(e)] of the exception *)

(** The service as the worker sees it. *)
Record Service : Type := {
  configure : json -> option string;   (* [Some e]: setting up the client raises *)
  respond : api_call -> call_result
}.

Record GeminiWorker : Type := {
  api_key : json;
  message : string;
  history : list (gmap string json)
}.

(** The signal the worker emits. *)
Inductive Signal : Type :=
  | response_received (ai_message : string)
  | error_occurred (error_message : string).

Definition MSG_LIBRARY : string := "Google AI library not installed.".
Definition MSG_NO_KEY : string := "API Key not set. Please configure it in Settings.".
Definition MSG_NO_TEXT : string := "API response candidate parts contained no text.".
Definition MSG_EMPTY : string :=
  "Received an empty or unexpected response format from the API.".
Definition MSG_INVALID_KEY : string :=
  "API Error: Invalid API Key. Please check it in Settings.".
Definition MSG_QUOTA : string :=
  "API Error: Quota exceeded. Please check your Google AI usage limits.".
Definition MSG_TIMEOUT : string := "API Error: Request timed out. Please try again.".
Definition MSG_PERMISSION : string :=
  "API Error: Permission denied. Check API key permissions.".
Definition MSG_MODEL : string := "API Error: Model not found. Check the model name.".

Definition msg_blocked (reason : string) : string :=
  "Request blocked: " +:+ reason +:+ ". Please modify your prompt.".

Definition msg_api_error (e : string) : string := "API Error: " +:+ e.

(** The tests of the [except Exception as e] branch of [run], on [str(e)]. *)
Definition mentions_invalid_key (e : string) : bool :=
  Str.contains "API key not valid" e || Str.contains "API_KEY_INVALID" e.

Definition mentions_quota (e : string) : bool :=
  Str.contains "quota" (Str.lower e) || Str.contains "RESOURCE_EXHAUSTED" e.

Definition mentions_deadline (e : string) : bool :=
  Str.contains "Deadline Exceeded" e.

Definition mentions_permission (e : string) : bool :=
  Str.contains "PermissionDenied" e
  || Str.contains "permission denied" (Str.lower e).

Definition mentions_model (e : string) : bool :=
  Str.contains "NotFound" e && Str.contains "models/" e.

(** The [if]/[elif] chain that picks the error message. *)
Definition classify_exception (e : string) : string :=
  if mentions_invalid_key e then MSG_INVALID_KEY
  else if mentions_quota e then MSG_QUOTA
  else if mentions_deadline e then MSG_TIMEOUT
  else if mentions_permission e then MSG_PERMISSION
  else if mentions_model e then MSG_MODEL
  else msg_api_error e.

(** ["".join(part.text for part in parts if hasattr(part, 'text'))]. *)
Fixpoint join_text (parts : list Part) : string :=
  match parts with
  | [] => ""
  | p :: rest =>
      match part_text p with
      | Some t => t +:+ join_text rest
      | None => join_text rest
      end
  end.

(** The code after the inner [try], reached when no candidate part was
    inspected: the block reason, then the empty-response error. *)
Definition after_candidates (r : Response) : Signal :=
  match block_reason r with
  | Some reason => error_occurred (msg_blocked reason)
  | None => error_occurred MSG_EMPTY
  end.

(** Lines 98-122 of [run]: what is emitted for a returned response. *)
Definition interpret_response (response : option Response) : Signal :=
  match response with
  | None => error_occurred MSG_EMPTY
  | Some r =>
      match text r with
      | Some response_text => response_received response_text
      | None =>
          match candidates r with
          | first :: _ =>
              match content_parts first with
              | [] => after_candidates r
              | candidate_parts =>
                  let response_text := join_text candidate_parts in
                  if Str.is_empty response_text
                  then error_occurred MSG_NO_TEXT
                  else response_received response_text
              end
          | [] => after_candidates r
          end
      end
  end.

(** [[item for item in self.history if 'role' in item and 'parts' in item]]. *)
Definition formatted_history (h : list (gmap string json)) : list (gmap string json) :=
  filter (fun item => is_Some (item !! "role") /\ is_Some (item !! "parts")) h.

(** The completion call [run] issues once the client is set up:
    [generate_content] on an empty formatted history, otherwise
    [start_chat(history=...)] followed by [send_message]. *)
Definition completion_call (w : GeminiWorker) : api_call :=
  match formatted_history (history w) with
  | [] => generate_content (api_key w) (message w)
  | seed => chat_send_message (api_key w) seed (message w)
  end.

(** [GeminiWorker.run]: the calls made to the service, in order, and the
    one signal emitted. *)
Definition run (svc : Service) (w : GeminiWorker) : list api_call * Signal :=
  if negb GOOGLE_AI_AVAILABLE then ([], error_occurred MSG_LIBRARY)
  else if negb (truthy (api_key w)) then ([], error_occurred MSG_NO_KEY)
  else
    match configure svc (api_key w) with
    | Some e => ([], error_occurred (classify_exception e))
    | None =>
        let call := completion_call w in
        ([call],
         match respond svc call with
         | Raises e => error_occurred (classify_exception e)
         | Returns response => interpret_response response
         end)
    end.

(** ** The chat window *)

(** Where the worker thread stands, seen from the UI thread. *)
Inductive worker_phase : Type :=
  | NoWorker
  | Running (w : GeminiWorker)   (* started, its signal not yet delivered *)
  | Emitted.                     (* signal handled, [finished] still queued *)

Record ChatWindow : Type := {
  config : gmap string json;               (* the global [config] *)
  message_input : string;                  (* text of the line edit *)
  message_input_enabled : bool;
  send_button_enabled : bool;
  chat_layout : list (string * string);    (* bubbles: text and sender *)
  chat_history : list (gmap string json);
  status_text : string;
  status_isError : option bool;            (* property [isError], unset at first *)
  status_visible : bool;
  timers : list (nat * string);            (* pending single shots: delay, message to hide *)
  worker : worker_phase
}.

Definition set_status (text' : string) (err : option bool) (vis : bool)
    (st : ChatWindow) : ChatWindow :=
  {| config := config st; message_input := message_input st;
     message_input_enabled := message_input_enabled st;
     send_button_enabled := send_button_enabled st;
     chat_layout := chat_layout st; chat_history := chat_history st;
     status_text := text'; status_isError := err; status_visible := vis;
     timers := timers st; worker := worker st |}.

Definition set_timers (ts : list (nat * string)) (st : ChatWindow) : ChatWindow :=
  {| config := config st; message_input := message_input st;
     message_input_enabled := message_input_enabled st;
     send_button_enabled := send_button_enabled st;
     chat_layout := chat_layout st; chat_history := chat_history st;
     status_text := status_text st; status_isError := status_isError st;
     status_visible := status_visible st;
     timers := ts; worker := worker st |}.

Definition set_chat (layout : list (string * string))
    (h : list (gmap string json)) (st : ChatWindow) : ChatWindow :=
  {| config := config st; message_input := message_input st;
     message_input_enabled := message_input_enabled st;
     send_button_enabled := send_button_enabled st;
     chat_layout := layout; chat_history := h;
     status_text := status_text st; status_isError := status_isError st;
     status_visible := status_visible st;
     timers := timers st; worker := worker st |}.

Definition set_input (text' : string) (st : ChatWindow) : ChatWindow :=
  {| config := config st; message_input := text';
     message_input_enabled := message_input_enabled st;
     send_button_enabled := send_button_enabled st;
     chat_layout := chat_layout st; chat_history := chat_history st;
     status_text := status_text st; status_isError := status_isError st;
     status_visible := status_visible st;
     timers := timers st; worker := worker st |}.

Definition set_enabled (b : bool) (st : ChatWindow) : ChatWindow :=
  {| config := config st; message_input := message_input st;
     message_input_enabled := b; send_button_enabled := b;
     chat_layout := chat_layout st; chat_history := chat_history st;
     status_text := status_text st; status_isError := status_isError st;
     status_visible := status_visible st;
     timers := timers st; worker := worker st |}.

Definition set_worker (ph : worker_phase) (st : ChatWindow) : ChatWindow :=
  {| config := config st; message_input := message_input st;
     message_input_enabled := message_input_enabled st;
     send_button_enabled := send_button_enabled st;
     chat_layout := chat_layout st; chat_history := chat_history st;
     status_text := status_text st; status_isError := status_isError st;
     status_visible := status_visible st;
     timers := timers st; worker := ph |}.

Definition set_config (c : gmap string json) (st : ChatWindow) : ChatWindow :=
  {| config := c; message_input := message_input st;
     message_input_enabled := message_input_enabled st;
     send_button_enabled := send_button_enabled st;
     chat_layout := chat_layout st; chat_history := chat_history st;
     status_text := status_text st; status_isError := status_isError st;
     status_visible := status_visible st;
     timers := timers st; worker := worker st |}.

(** The two texts that make a status message persistent. *)
Definition has_persistent_marker (m : string) : bool :=
  Str.contains "API Key not set" m || Str.contains "google-generativeai not found" m.

(** [is_error and (...)], where [is_error] may still be unset. *)
Definition is_persistent_error (is_error : option bool) (m : string) : bool :=
  default false is_error && has_persistent_marker m.

(** [show_status_message(message, error, duration)]. *)
Definition show_status_message (m : string) (error : bool) (duration : nat)
    (st : ChatWindow) : ChatWindow :=
  let st1 := set_status m (Some error) true st in
  let is_persistent := (duration =? 0) || has_persistent_marker m in
  if is_persistent then st1 else set_timers (timers st1 ++ [(duration, m)]) st1.

(** The default of the [duration] argument. *)
Definition DEFAULT_DURATION : nat := 5000.

(** [hide_specific_status_message(message_to_hide)]. *)
Definition hide_specific_status_message (message_to_hide : string)
    (st : ChatWindow) : ChatWindow :=
  if status_visible st && String.eqb (status_text st) message_to_hide
  then
    if is_persistent_error (status_isError st) message_to_hide then st
    else set_status (status_text st) (status_isError st) false st
  else st.

(** [hide_status_message()]. *)
Definition hide_status_message (st : ChatWindow) : ChatWindow :=
  if is_persistent_error (status_isError st) (status_text st) then st
  else set_status (status_text st) (status_isError st) false st.

(** [update_status_based_on_config()]. *)
Definition update_status_based_on_config (st : ChatWindow) : ChatWindow :=
  if negb GOOGLE_AI_AVAILABLE
  then show_status_message "Warning: google-generativeai not found..." true 0 st
  else if negb (truthy (dict_get (config st) "api_key"))
  then show_status_message "API Key not set..." true 0 st
  else hide_status_message st.

(** [add_message_to_chat(text, sender)]. *)
Definition add_message_to_chat (text' sender : string) (st : ChatWindow) : ChatWindow :=
  set_chat (chat_layout st ++ [(text', sender)]) (chat_history st) st.

(** [send_message()]. *)
Definition send_message (st : ChatWindow) : ChatWindow :=
  let user_message := Str.strip (message_input st) in
  if Str.is_empty user_message then st
  else
    let key := dict_get (config st) "api_key" in
    if negb (truthy key)
    then show_status_message "Error: API Key not set..." true DEFAULT_DURATION st
    else if negb GOOGLE_AI_AVAILABLE
    then show_status_message "Error: Google AI library not installed." true
           DEFAULT_DURATION st
    else
      let st1 := add_message_to_chat user_message "user" st in
      let st2 := set_input "" st1 in
      let st3 := show_status_message "AI is thinking..." false DEFAULT_DURATION st2 in
      let st4 := set_enabled false st3 in
      let st5 := set_chat (chat_layout st4)
                   (chat_history st4 ++ [turn "user" user_message]) st4 in
      set_worker
        (Running {| api_key := key; message := user_message;
                    history := chat_history st5 |})
        st5.

(** [handle_response(ai_message)]. *)
Definition handle_response (ai_message : string) (st : ChatWindow) : ChatWindow :=
  let st1 := add_message_to_chat ai_message "model" st in
  let st2 := set_chat (chat_layout st1)
               (chat_history st1 ++ [turn "model" ai_message]) st1 in
  hide_status_message st2.

(** [self.chat_history[-1]['role'] == 'user'], on a non-empty history.
    Every dictionary in the history is built by [turn], so the key is
    there. *)
Definition last_is_user (h : list (gmap string json)) : bool :=
  match last h with
  | Some item => json_is_str (dict_get item "role") "user"
  | None => false
  end.

(** [handle_error(error_message)]; [removelast] is [list.pop()]. *)
Definition handle_error (error_message : string) (st : ChatWindow) : ChatWindow :=
  let st1 := show_status_message error_message true DEFAULT_DURATION st in
  if last_is_user (chat_history st1)
  then set_chat (chat_layout st1) (removelast (chat_history st1)) st1
  else st1.

(** [on_worker_finished()]. *)
Definition on_worker_finished (st : ChatWindow) : ChatWindow :=
  let st1 := set_enabled true st in
  if negb (default false (status_isError st1)) then hide_status_message st1 else st1.

(** [on_settings_changed()], given what the reload finds on disk. *)
Definition on_settings_changed (f : config_file) (st : ChatWindow) : ChatWindow :=
  let st1 := set_config (load_config f) st in
  let st2 := update_status_based_on_config st1 in
  set_chat [] [] st2.

(** [ChatWindow.__init__], with the configuration read at import time. *)
Definition init (f : config_file) : ChatWindow :=
  update_status_based_on_config
    {| config := load_config f; message_input := "";
       message_input_enabled := true; send_button_enabled := true;
       chat_layout := []; chat_history := [];
       status_text := ""; status_isError := None; status_visible := false;
       timers := []; worker := NoWorker |}.

(** Delivery of the worker's signal to its slot. *)
Definition deliver (sig : Signal) (st : ChatWindow) : ChatWindow :=
  match sig with
  | response_received ai_message => handle_response ai_message st
  | error_occurred error_message => handle_error error_message st
  end.

(** What the event loop can hand to the window.  Qt delivers no click and
    no return key to a disabled widget; the worker's signal precedes its
    [finished]. *)
Inductive event : Type :=
  | EditInput (text' : string)
  | SendClicked
  | ReturnPressed
  | WorkerSignal (svc : Service)
  | WorkerFinished
  | TimerFired (i : nat)
  | SettingsSaved (f : config_file).

Definition step (ev : event) (st : ChatWindow) : option ChatWindow :=
  match ev with
  | EditInput text' =>
      if message_input_enabled st then Some (set_input text' st) else None
  | SendClicked =>
      if send_button_enabled st then Some (send_message st) else None
  | ReturnPressed =>
      if message_input_enabled st then Some (send_message st) else None
  | WorkerSignal svc =>
      match worker st with
      | Running w => Some (set_worker Emitted (deliver (snd (run svc w)) st))
      | _ => None
      end
  | WorkerFinished =>
      match worker st with
      | Emitted => Some (set_worker NoWorker (on_worker_finished st))
      | _ => None
      end
  | TimerFired i =>
      match timers st !! i with
      | Some (_, m) =>
          Some (hide_specific_status_message m (set_timers (delete i (timers st)) st))
      | None => None
      end
  | SettingsSaved f => Some (on_settings_changed f st)
  end.

(** States the window can be in. *)
Inductive reachable : ChatWindow -> Prop :=
  | reachable_init f : reachable (init f)
  | reachable_step ev st st' :
      reachable st -> step ev st = Some st' -> reachable st'.

(** Feeding a sequence of events to the window, oldest first. *)
Fixpoint run_events (evs : list event) (st : ChatWindow) : option ChatWindow :=
  match evs with
  | [] => Some st
  | ev :: rest =>
      match step ev st with
      | Some st' => run_events rest st'
      | None => None
      end
  end.

(** Two user turns next to each other somewhere in the transcript. *)
Fixpoint consecutive_users (h : list (gmap string json)) : bool :=
  match h with
  | a :: rest =>
      (json_is_str (dict_get a "role") "user"
       && match rest with
          | b :: _ => json_is_str (dict_get b "role") "user"
          | [] => false
          end)
      || consecutive_users rest
  | [] => false
  end.

(** ** Vocabulary of the statements *)

(** The attributes the status-bar operations leave alone. *)
Definition core (st : ChatWindow) :=
  (config st, message_input st, message_input_enabled st,
   send_button_enabled st, chat_layout st, chat_history st, worker st).

(** [send_message] gets past its three guards and starts a worker. *)
Definition starts_dispatch (st : ChatWindow) : bool :=
  negb (Str.is_empty (Str.strip (message_input st)))
  && truthy (dict_get (config st) "api_key")
  && GOOGLE_AI_AVAILABLE.

(** The content parts [run] looks at: those of the first candidate. *)
Definition first_parts (r : Response) : list Part :=
  match candidates r with
  | first :: _ => content_parts first
  | [] => []
  end.

(** The response has no direct text and its first candidate has parts,
    none of which carries text. *)
Definition parts_without_text (r : Response) : bool :=
  match text r, first_parts r with
  | None, _ :: _ => Str.is_empty (join_text (first_parts r))
  | _, _ => false
  end.

(** The interpretation order as the specification words it: direct text,
    else the text fragments of the candidate parts, else the block
    reason, else the empty-response failure. *)
Definition interpret_response_spec (response : option Response) : Signal :=
  match response with
  | None => error_occurred MSG_EMPTY
  | Some r =>
      match text r with
      | Some t => response_received t
      | None =>
          if negb (Str.is_empty (join_text (first_parts r)))
          then response_received (join_text (first_parts r))
          else
            match block_reason r with
            | Some reason => error_occurred (msg_blocked reason)
            | None => error_occurred MSG_EMPTY
            end
      end
  end.

(** The invariant of the event loop: no two user turns in a row; unless a
    worker is running the transcript does not end in a user turn; and the
    input controls are enabled only when no worker is pending. *)
Definition loop_invariant (st : ChatWindow) : Prop :=
  consecutive_users (chat_history st) = false
  /\ match worker st with
     | Running _ => True
     | _ => last_is_user (chat_history st) = false
     end
  /\ (message_input_enabled st || send_button_enabled st = true ->
      worker st = NoWorker).

(** ** Saving the configuration and the settings dialog *)

(** What the [open]/[json.dump] of [save_config] does to the disk: the
    file holds the dumped object, or an [IOError] is caught and the disk
    is left with whatever the failed write produced. *)
Inductive write_result : Type :=
  | WriteOk
  | WriteFailed (left_on_disk : config_file).

(** [save_config(config_to_save)]: the file found by the next load. *)
Definition save_config (config_to_save : gmap string json) (r : write_result)
    : config_file :=
  match r with
  | WriteOk => FileObject config_to_save
  | WriteFailed left_on_disk => left_on_disk
  end.

(** The three inputs of the settings dialog. *)
Record SettingsDialog : Type := {
  api_key_input : string;      (* text of the key field *)
  dark_radio : bool;           (* the "Dark" radio button is checked *)
  selected_color : json        (* [self.selected_color] *)
}.

(** [QLineEdit.setText] belongs to Qt.  It shows a string as it is and
    takes [None] for the empty string; what it does with a value of
    another type is left to [setText_other]: the text the field then
    holds, or nothing when the call raises. *)
Variable setText_other : json -> option string.



(** What [save_settings] stores into the global [config]. *)
Definition settings_to_config (d : SettingsDialog) (c : gmap string json)
    : gmap string json :=
  <["accent_color" := selected_color d]>
    (<["theme" := JStr (if dark_radio d then "dark" else "light")]>
      (<["api_key" := JStr (api_key_input d)]> c)).

(** [SettingsDialog.save_settings()], seen from the chat window: the
    global [config] is updated and written, then [settings_changed]
    reaches [on_settings_changed], which reloads from disk. *)
Definition save_settings (d : SettingsDialog) (r : write_result)
    (st : ChatWindow) : ChatWindow :=
  let config' := settings_to_config d (config st) in
  on_settings_changed (save_config config' r) (set_config config' st).

(** ** More vocabulary *)

(** Two turns of the given role next to each other. *)
Fixpoint consecutive_role (role : string) (h : list (gmap string json)) : bool :=
  match h with
  | a :: rest =>
      (json_is_str (dict_get a "role") role
       && match rest with
          | b :: _ => json_is_str (dict_get b "role") role
          | [] => false
          end)
      || consecutive_role role rest
  | [] => false
  end.

(** [h[-1]['role'] == role] on a non-empty list. *)
Definition last_has_role (role : string) (h : list (gmap string json)) : bool :=
  match last h with
  | Some item => json_is_str (dict_get item "role") role
  | None => false
  end.

(** A transcript entry as the two handlers build it: a user turn with a
    non-empty message or a model turn. *)
Definition well_formed_turn (item : gmap string json) : Prop :=
  (exists m, item = turn "user" m /\ Str.is_empty m = false)
  \/ (exists t, item = turn "model" t).

(** Every pending expiry has the default delay and a message without
    persistence marker. *)
Definition timers_ok (ts : list (nat * string)) : Prop :=
  Forall (fun tm => fst tm = DEFAULT_DURATION
                    /\ has_persistent_marker (snd tm) = false) ts.

(** What holds of a worker that [send_message] started. *)
Definition dispatched_worker (w : GeminiWorker) : Prop :=
  GOOGLE_AI_AVAILABLE = true
  /\ truthy (api_key w) = true
  /\ Str.is_empty (message w) = false
  /\ exists prior,
       history w = prior ++ [turn "user" (message w)]
       /\ Forall well_formed_turn prior.

(** The wider invariant of the event loop. *)
Definition session_invariant (st : ChatWindow) : Prop :=
  message_input_enabled st = send_button_enabled st
  /\ (send_button_enabled st = true <-> worker st = NoWorker)
  /\ Forall well_formed_turn (chat_history st)
  /\ consecutive_role "model" (chat_history st) = false
  /\ timers_ok (timers st)
  /\ match worker st with
     | Running w =>
         dispatched_worker w
         /\ (chat_history st = [] \/ last_has_role "user" (chat_history st) = true)
     | _ => True
     end.

(** ** Sample collaborators for the examples *)

(** A service that answers every call with the direct text [t]. *)
Definition answering_service (t : string) : Service :=
  {| configure := fun _ => None;
     respond := fun _ =>
       Returns (Some {| text := Some t; candidates := []; block_reason := None |}) |}.

(** A service whose completion call raises [e]. *)
Definition failing_service (e : string) : Service :=
  {| configure := fun _ => None; respond := fun _ => Raises e |}.

(** A configuration file that only sets the API key. *)
Definition key_file (k : string) : config_file :=
  FileObject (<["api_key" := JStr k]> ∅).

(** A response without direct text whose only candidate part has no text,
    and which carries a block reason. *)
Definition blocked_textless_response : Response :=
  {| text := None;
     candidates := [ {| content_parts := [ {| part_text := None |} ] |} ];
     block_reason := Some "SAFETY" |}.

(** * Properties *)

(** ** Strings *)

Lemma lstrip_all_space s : Str.all_space s = true -> Str.lstrip s = "".
Proof.
  induction s as [|c s IH]; simpl; [done|].
  intros [Hc Hs]%andb_prop. rewrite Hc. auto.
Qed.

Lemma lstrip_head s c rest :
  Str.lstrip s = String c rest -> Str.isspace c = false.
Proof.
  induction s as [|a s IH]; simpl; [done|].
  destruct (Str.isspace a) eqn:Ha; [auto|].
  intros [= -> ->]. done.
Qed.

Lemma lstrip_empty_all_space s : Str.lstrip s = "" -> Str.all_space s = true.
Proof.
  induction s as [|a s IH]; simpl; [done|].
  destruct (Str.isspace a); [auto | done].
Qed.

Lemma rstrip_nonempty c rest :
  Str.isspace c = false -> Str.is_empty (Str.rstrip (String c rest)) = false.
Proof. intros Hc. simpl. rewrite Hc. by destruct (Str.rstrip rest). Qed.

(** [strip] returns the empty string exactly on whitespace-only input. *)
Lemma strip_empty_iff s :
  Str.is_empty (Str.strip s) = Str.all_space s.
Proof.
  unfold Str.strip. destruct (Str.lstrip s) as [|c rest] eqn:Hl.
  - simpl. symmetry. by apply lstrip_empty_all_space.
  - rewrite rstrip_nonempty by (by eapply lstrip_head).
    destruct (Str.all_space s) eqn:Hs; [|done].
    apply lstrip_all_space in Hs. congruence.
Qed.

(** ** The status bar leaves the conversation alone *)

Lemma core_show_status_message m error duration st :
  core (show_status_message m error duration st) = core st.
Proof. unfold show_status_message. by case_match. Qed.

Lemma core_hide_specific_status_message m st :
  core (hide_specific_status_message m st) = core st.
Proof. unfold hide_specific_status_message. by repeat case_match. Qed.

Lemma core_hide_status_message st : core (hide_status_message st) = core st.
Proof. unfold hide_status_message. by case_match. Qed.

Lemma core_update_status_based_on_config st :
  core (update_status_based_on_config st) = core st.
Proof.
  unfold update_status_based_on_config.
  repeat case_match;
    auto using core_show_status_message, core_hide_status_message.
Qed.

Lemma core_history st st' : core st' = core st -> chat_history st' = chat_history st.
Proof. unfold core. by intros [= _ _ _ _ _ -> _]. Qed.

Lemma core_worker st st' : core st' = core st -> worker st' = worker st.
Proof. unfold core. by intros [= _ _ _ _ _ _ ->]. Qed.

Lemma core_layout st st' : core st' = core st -> chat_layout st' = chat_layout st.
Proof. unfold core. by intros [= _ _ _ _ -> _ _]. Qed.

Lemma core_enabled st st' :
  core st' = core st ->
  message_input_enabled st' = message_input_enabled st
  /\ send_button_enabled st' = send_button_enabled st.
Proof. unfold core. by intros [= _ _ -> -> _ _ _]. Qed.

(** A message carrying one of the two markers gets no expiry timer, and
    once shown as an error nothing but another message replaces it. *)
Lemma marked_message_persists m duration st :
  has_persistent_marker m = true ->
  let st' := show_status_message m true duration st in
  status_text st' = m /\ status_visible st' = true
  /\ status_isError st' = Some true
  /\ timers st' = timers st
  /\ (forall m', hide_specific_status_message m' st' = st')
  /\ hide_status_message st' = st'
  /\ status_visible (on_worker_finished st') = true.
Proof.
  intros Hm. unfold show_status_message. rewrite Hm, orb_true_r. simpl.
  repeat split; try done.
  - intros m'. unfold hide_specific_status_message. simpl.
    destruct (String.eqb m m') eqn:E; [|done].
    apply String.eqb_eq in E as <-.
    unfold is_persistent_error. simpl. by rewrite Hm.
  - unfold hide_status_message, is_persistent_error. simpl. by rewrite Hm.
Qed.

(** A message without marker shown with a positive delay schedules its
    own expiry, and the expiry hides it if it is still the one shown. *)
Lemma unmarked_message_expires m error duration st :
  has_persistent_marker m = false -> duration <> 0 ->
  let st' := show_status_message m error duration st in
  timers st' = timers st ++ [(duration, m)]
  /\ status_visible st' = true
  /\ status_visible (hide_specific_status_message m st') = false.
Proof.
  intros Hm Hd. unfold show_status_message.
  apply Nat.eqb_neq in Hd. rewrite Hd, Hm. simpl.
  repeat split; try done.
  unfold hide_specific_status_message. simpl. rewrite String.eqb_refl.
  unfold is_persistent_error. rewrite Hm, andb_false_r. done.
Qed.

(** ** Transcript shapes *)

Lemma last_is_user_snoc h item :
  last_is_user (h ++ [item]) = json_is_str (dict_get item "role") "user".
Proof. unfold last_is_user. by rewrite last_snoc. Qed.

Lemma role_of_turn role text' : dict_get (turn role text') "role" = JStr role.
Proof. unfold dict_get, turn. by rewrite lookup_insert_eq. Qed.

Lemma user_turn_is_user text' :
  json_is_str (dict_get (turn "user" text') "role") "user" = true.
Proof. by rewrite role_of_turn. Qed.

Lemma model_turn_is_not_user text' :
  json_is_str (dict_get (turn "model" text') "role") "user" = false.
Proof. by rewrite role_of_turn. Qed.

Lemma consecutive_users_snoc h item :
  consecutive_users (h ++ [item])
  = consecutive_users h
    || (last_is_user h && json_is_str (dict_get item "role") "user").
Proof.
  induction h as [|a h IH]; [by simpl; rewrite andb_false_r|].
  change ((a :: h) ++ [item]) with (a :: (h ++ [item])).
  cbn [consecutive_users]. rewrite IH. clear IH.
  destruct h as [|b h]; simpl.
  - unfold last_is_user. simpl.
    by rewrite andb_false_r, !orb_false_r.
  - replace (last_is_user (a :: b :: h)) with (last_is_user (b :: h))
      by (unfold last_is_user; by rewrite last_cons_cons).
    by rewrite !orb_assoc.
Qed.

(** What the guards of [send_message] let through. *)
Lemma send_message_dispatch st :
  starts_dispatch st = true ->
  let user_message := Str.strip (message_input st) in
  let sent := send_message st in
  chat_history sent = chat_history st ++ [turn "user" user_message]
  /\ worker sent = Running {| api_key := dict_get (config st) "api_key";
                              message := user_message;
                              history := chat_history st ++ [turn "user" user_message] |}
  /\ message_input_enabled sent = false /\ send_button_enabled sent = false.
Proof.
  unfold starts_dispatch. rewrite !andb_true_iff, negb_true_iff.
  intros [[H1 H2] H3].
  unfold send_message. rewrite H1, H2, H3. done.
Qed.

Lemma send_message_no_dispatch st :
  starts_dispatch st = false -> core (send_message st) = core st.
Proof.
  unfold starts_dispatch, send_message. intros H.
  destruct (Str.is_empty (Str.strip (message_input st))); [done|].
  destruct (truthy (dict_get (config st) "api_key")); simpl in *;
    [|apply core_show_status_message].
  rewrite H. simpl. apply core_show_status_message.
Qed.

Lemma handle_error_history e st :
  chat_history (handle_error e st)
  = if last_is_user (chat_history st) then removelast (chat_history st)
    else chat_history st.
Proof.
  unfold handle_error.
  pose proof (core_history _ _ (core_show_status_message e true DEFAULT_DURATION st)) as Hh.
  rewrite Hh. by case_match.
Qed.

Lemma handle_response_history ai_message st :
  chat_history (handle_response ai_message st)
  = chat_history st ++ [turn "model" ai_message].
Proof.
  unfold handle_response.
  by rewrite (core_history _ _ (core_hide_status_message _)).
Qed.

(** ** The handlers *)

(** C3.  A dispatch that was started and then fails, with any error
    message, gives back the transcript as it was before the send: the
    handler pops exactly the user turn that [send_message] had appended,
    and every earlier turn stays in place.  This holds from any state
    whose transcript is still the one the send left. *)
Theorem failed_dispatch_retracts_user_turn (e : string) (st : ChatWindow)
    (Hsend : starts_dispatch st = true) :
  let sent := send_message st in
  chat_history sent
  = chat_history st ++ [turn "user" (Str.strip (message_input st))]
  /\ (forall st', chat_history st' = chat_history sent ->
        chat_history (handle_error e st') = chat_history st)
  /\ chat_history (deliver (error_occurred e) sent) = chat_history st.
Proof.
  destruct (send_message_dispatch st Hsend) as (Hh & _).
  cbn zeta in *. split; [done|].
  assert (forall st', chat_history st' = chat_history (send_message st) ->
            chat_history (handle_error e st') = chat_history st) as Hpop.
  { intros st' Hst'. rewrite handle_error_history, Hst', Hh.
    rewrite last_is_user_snoc, user_turn_is_user.
    apply removelast_last. }
  split; [done|]. simpl. by apply Hpop.
Qed.

(** The error handler never removes anything but one trailing user turn. *)
Lemma handle_error_removes_at_most_last_user e st :
  chat_history (handle_error e st) = chat_history st
  \/ exists item,
       json_is_str (dict_get item "role") "user" = true
       /\ chat_history st = chat_history (handle_error e st) ++ [item].
Proof.
  rewrite handle_error_history.
  destruct (chat_history st) as [|a h] using rev_ind; [by left|].
  rewrite last_is_user_snoc.
  destruct (json_is_str (dict_get a "role") "user") eqn:Ha; [|by left].
  right. exists a. by rewrite removelast_last.
Qed.

(** C5.  The success handler appends one model turn carrying the returned
    text and touches nothing before it; after a send, the user turn of
    that send is still there, right before the model turn. *)
Theorem successful_dispatch_appends_model_turn (ai_message : string)
    (st : ChatWindow) :
  chat_history (handle_response ai_message st)
  = chat_history st ++ [turn "model" ai_message]
  /\ turn "model" ai_message !! "parts" = Some (JList [JStr ai_message])
  /\ turn "model" ai_message !! "role" = Some (JStr "model")
  /\ (starts_dispatch st = true ->
      chat_history (deliver (response_received ai_message) (send_message st))
      = chat_history st
        ++ [turn "user" (Str.strip (message_input st)); turn "model" ai_message]).
Proof.
  split; [apply handle_response_history|].
  split; [done|]. split; [done|].
  intros Hsend. destruct (send_message_dispatch st Hsend) as (Hh & _).
  simpl in *. rewrite handle_response_history, Hh.
  by rewrite <- app_assoc.
Qed.

(** C10.  With an empty or whitespace-only input, [send_message] returns
    the window as it found it: same transcript, no worker started, same
    status bar, no timer added. *)
Theorem blank_input_is_ignored (st : ChatWindow)
    (Hblank : Str.all_space (message_input st) = true) :
  send_message st = st.
Proof.
  unfold send_message. by rewrite strip_empty_iff, Hblank.
Qed.

(** C2.  With no usable API key in the configuration, [send_message]
    never touches the transcript or the bubbles and starts no worker; for
    a non-blank message it shows the error "Error: API Key not set...",
    with no expiry timer, which neither a timer of another message nor
    the hiding operations clear.  A worker given such a key makes no call
    to the service and emits the missing-key error. *)
Theorem send_without_credential (st : ChatWindow)
    (Hkey : truthy (dict_get (config st) "api_key") = false) :
  let st' := send_message st in
  chat_history st' = chat_history st
  /\ chat_layout st' = chat_layout st
  /\ worker st' = worker st
  /\ (Str.all_space (message_input st) = false ->
      status_text st' = "Error: API Key not set..."
      /\ status_visible st' = true
      /\ status_isError st' = Some true
      /\ timers st' = timers st
      /\ (forall m, hide_specific_status_message m st' = st')
      /\ hide_status_message st' = st')
  /\ (forall svc w, truthy (api_key w) = false ->
        fst (run svc w) = []
        /\ (GOOGLE_AI_AVAILABLE = true ->
            snd (run svc w) = error_occurred MSG_NO_KEY)).
Proof.
  assert (starts_dispatch st = false) as Hno.
  { unfold starts_dispatch. by rewrite Hkey, andb_false_r. }
  pose proof (send_message_no_dispatch st Hno) as Hcore.
  cbn zeta.
  split; [by apply core_history|].
  split; [by apply core_layout|].
  split; [by apply core_worker|].
  split.
  - intros Hmsg. unfold send_message.
    rewrite strip_empty_iff, Hmsg, Hkey. simpl negb. cbv iota.
    pose proof (marked_message_persists "Error: API Key not set..."
                  DEFAULT_DURATION st eq_refl) as H.
    cbn zeta in H. tauto.
  - intros svc w Hw. unfold run. rewrite Hw.
    destruct GOOGLE_AI_AVAILABLE; simpl; [|by split].
    by split.
Qed.

(** ** The event loop *)

Lemma loop_invariant_core st st' :
  core st' = core st -> loop_invariant st -> loop_invariant st'.
Proof.
  intros Hc. unfold loop_invariant.
  rewrite (core_history _ _ Hc), (core_worker _ _ Hc).
  by destruct (core_enabled _ _ Hc) as [-> ->].
Qed.

Lemma consecutive_users_removelast h :
  consecutive_users h = false -> last_is_user h = true ->
  consecutive_users (removelast h) = false
  /\ last_is_user (removelast h) = false.
Proof.
  destruct h as [|a h] using rev_ind; [done|].
  rewrite consecutive_users_snoc, last_is_user_snoc, removelast_last.
  intros [H1 H2]%orb_false_elim Ha. rewrite Ha, andb_true_r in H2. done.
Qed.

Lemma loop_invariant_init f : loop_invariant (init f).
Proof.
  unfold init. eapply loop_invariant_core;
    [apply core_update_status_based_on_config|].
  by unfold loop_invariant.
Qed.

Lemma loop_invariant_send st :
  message_input_enabled st || send_button_enabled st = true ->
  loop_invariant st -> loop_invariant (send_message st).
Proof.
  intros Hen Hinv. destruct (starts_dispatch st) eqn:Hd.
  - destruct Hinv as (Hcu & Hlast & Hidle).
    rewrite (Hidle Hen) in Hlast.
    destruct (send_message_dispatch st Hd) as (Hh & Hw & He1 & He2).
    cbn zeta in *. unfold loop_invariant.
    rewrite Hh, Hw, He1, He2, consecutive_users_snoc, Hcu, Hlast.
    done.
  - eapply loop_invariant_core; [by apply send_message_no_dispatch|done].
Qed.

Lemma loop_invariant_deliver sig w st :
  worker st = Running w -> loop_invariant st ->
  loop_invariant (set_worker Emitted (deliver sig st)).
Proof.
  intros Hw (Hcu & _ & Hidle). rewrite Hw in Hidle.
  assert (message_input_enabled st || send_button_enabled st = false) as Hoff.
  { destruct (message_input_enabled st || send_button_enabled st); [|done].
    by specialize (Hidle eq_refl). }
  unfold loop_invariant. simpl.
  assert (message_input_enabled (deliver sig st)
          || send_button_enabled (deliver sig st) = false) as ->.
  { destruct sig; simpl.
    - unfold handle_response.
      destruct (core_enabled _ _ (core_hide_status_message
        (set_chat (chat_layout (add_message_to_chat ai_message "model" st))
           (chat_history (add_message_to_chat ai_message "model" st)
            ++ [turn "model" ai_message])
           (add_message_to_chat ai_message "model" st)))) as [-> ->].
      done.
    - unfold handle_error.
      destruct (core_enabled _ _
        (core_show_status_message error_message true DEFAULT_DURATION st))
        as [E1 E2].
      case_match; simpl; by rewrite E1, E2. }
  split; [|split; [|done]].
  - destruct sig; simpl.
    + rewrite handle_response_history, consecutive_users_snoc, Hcu.
      by rewrite model_turn_is_not_user, andb_false_r.
    + rewrite handle_error_history.
      destruct (last_is_user (chat_history st)) eqn:Hl; [|done].
      by apply consecutive_users_removelast.
  - destruct sig; simpl.
    + rewrite handle_response_history, last_is_user_snoc.
      apply model_turn_is_not_user.
    + rewrite handle_error_history.
      destruct (last_is_user (chat_history st)) eqn:Hl; [|done].
      by apply consecutive_users_removelast.
Qed.

Lemma loop_invariant_finished st :
  worker st = Emitted -> loop_invariant st ->
  loop_invariant (set_worker NoWorker (on_worker_finished st)).
Proof.
  intros Hw (Hcu & Hlast & _). rewrite Hw in Hlast.
  assert (chat_history (on_worker_finished st) = chat_history st) as Hh.
  { unfold on_worker_finished. case_match; [|done].
    by rewrite (core_history _ _ (core_hide_status_message _)). }
  unfold loop_invariant. simpl. by rewrite Hh.
Qed.

Lemma loop_invariant_settings f st :
  loop_invariant st -> loop_invariant (on_settings_changed f st).
Proof.
  intros (_ & Hlast & Hidle). unfold on_settings_changed, loop_invariant.
  simpl.
  pose proof (core_update_status_based_on_config (set_config (load_config f) st))
    as Hc.
  rewrite (core_worker _ _ Hc).
  destruct (core_enabled _ _ Hc) as [-> ->]. simpl.
  split; [done|]. split; [by destruct (worker st)|done].
Qed.

Lemma loop_invariant_step ev st st' :
  step ev st = Some st' -> loop_invariant st -> loop_invariant st'.
Proof.
  destruct ev; simpl.
  - case_match; [|done]. by intros [= <-].
  - destruct (send_button_enabled st) eqn:E; [|done]. intros [= <-].
    apply loop_invariant_send. by rewrite E, orb_true_r.
  - destruct (message_input_enabled st) eqn:E; [|done]. intros [= <-].
    apply loop_invariant_send. by rewrite E.
  - destruct (worker st) eqn:Hw; try done. intros [= <-].
    by eapply loop_invariant_deliver.
  - destruct (worker st) eqn:Hw; try done. intros [= <-].
    by apply loop_invariant_finished.
  - destruct (timers st !! i) as [[d m]|]; [|done]. intros [= <-].
    apply loop_invariant_core.
    by rewrite core_hide_specific_status_message.
  - intros [= <-]. apply loop_invariant_settings.
Qed.

Lemma run_events_reachable evs st st' :
  reachable st -> run_events evs st = Some st' -> reachable st'.
Proof.
  revert st. induction evs as [|ev evs IH]; simpl; intros st Hst.
  - by intros [= <-].
  - destruct (step ev st) as [st1|] eqn:Hstep; [|done].
    apply IH. by eapply reachable_step.
Qed.

Lemma reachable_loop_invariant st : reachable st -> loop_invariant st.
Proof.
  induction 1 as [f|ev st st' _ IH Hstep];
    [apply loop_invariant_init | by eapply loop_invariant_step].
Qed.

(** C4.  In every state the window can reach through editing, sending,
    the worker's success or failure, its termination, timer expiry and a
    settings reload, the transcript has no two user turns in a row; and a
    send is accepted only when no worker is pending. *)
Theorem reachable_no_consecutive_users (st : ChatWindow)
    (Hreach : reachable st) :
  consecutive_users (chat_history st) = false
  /\ (message_input_enabled st || send_button_enabled st = true ->
      worker st = NoWorker).
Proof.
  destruct (reachable_loop_invariant st Hreach) as (Hcu & _ & Hidle).
  by split.
Qed.

(** ** The worker *)

(** C6, as the code has it.  The worker reads a response in the stated
    order (direct text; else the text of the first candidate's parts;
    else the block reason; else the empty-response error) in every case
    but one: when the first candidate has parts and none carries text, it
    emits "API response candidate parts contained no text." and does not
    look at the block reason. *)
Theorem interpret_response_order (r : Response) :
  (parts_without_text r = false ->
   interpret_response (Some r) = interpret_response_spec (Some r))
  /\ (parts_without_text r = true ->
      interpret_response (Some r) = error_occurred MSG_NO_TEXT)
  /\ interpret_response None = interpret_response_spec None.
Proof.
  unfold parts_without_text, interpret_response, interpret_response_spec,
    first_parts, after_candidates.
  destruct (text r) as [t|]; [done|].
  destruct (candidates r) as [|first rest]; [done|].
  destruct (content_parts first) as [|p ps] eqn:Hparts; [done|].
  destruct (Str.is_empty (join_text (p :: ps))); simpl; split; done.
Qed.

(** A response with direct text is a success whatever else it carries. *)
Lemma interpret_response_direct_text r t :
  text r = Some t -> interpret_response (Some r) = response_received t.
Proof. unfold interpret_response. by intros ->. Qed.

(** C7.  When setting up the client or the completion call raises an
    exception with text [e], the worker emits exactly one signal, an
    error, and picks its text by the first test that matches, in this
    order: the invalid-key markers, the quota markers (the word "quota"
    in any letter case), the deadline marker, the permission markers
    ("permission denied" in any letter case), the model markers (both
    needed), and otherwise "API Error: " followed by [e] itself. *)
Theorem exception_classification (svc : Service) (w : GeminiWorker)
    (e : string)
    (Hlib : GOOGLE_AI_AVAILABLE = true)
    (Hkey : truthy (api_key w) = true)
    (Hraise : configure svc (api_key w) = Some e
              \/ (configure svc (api_key w) = None
                  /\ respond svc (completion_call w) = Raises e)) :
  snd (run svc w)
  = error_occurred
      (if Str.contains "API key not valid" e
          || Str.contains "API_KEY_INVALID" e
       then "API Error: Invalid API Key. Please check it in Settings."
       else if Str.contains "quota" (Str.lower e)
               || Str.contains "RESOURCE_EXHAUSTED" e
       then "API Error: Quota exceeded. Please check your Google AI usage limits."
       else if Str.contains "Deadline Exceeded" e
       then "API Error: Request timed out. Please try again."
       else if Str.contains "PermissionDenied" e
               || Str.contains "permission denied" (Str.lower e)
       then "API Error: Permission denied. Check API key permissions."
       else if Str.contains "NotFound" e && Str.contains "models/" e
       then "API Error: Model not found. Check the model name."
       else "API Error: " +:+ e).
Proof.
  unfold run. rewrite Hlib, Hkey. cbn [negb].
  destruct Hraise as [-> | [-> ->]]; reflexivity.
Qed.

(** The worker always emits a signal and makes at most one call. *)
Lemma run_makes_at_most_one_call svc w : length (fst (run svc w)) <= 1.
Proof. unfold run. repeat case_match; simpl; lia. Qed.

(** The dispatcher on its own: an empty history gives the single-turn
    call, and a history of well-formed turns seeds the chat with exactly
    that history. *)
Lemma completion_call_empty key m :
  completion_call {| api_key := key; message := m; history := [] |}
  = generate_content key m.
Proof. done. Qed.

Lemma formatted_history_turns h :
  Forall (fun item => exists role text', item = turn role text') h ->
  formatted_history h = h.
Proof.
  unfold formatted_history. induction 1 as [|item h (role & text' & ->) _ IH];
    [done|].
  rewrite filter_cons_True; [by rewrite IH|].
  unfold turn. split; [by rewrite lookup_insert_eq|].
  rewrite lookup_insert_ne by done. by rewrite lookup_insert_eq.
Qed.

Lemma completion_call_seeded key m item h :
  Forall (fun item => exists role text', item = turn role text') (item :: h) ->
  completion_call {| api_key := key; message := m; history := item :: h |}
  = chat_send_message key (item :: h) m.
Proof.
  intros Hh. unfold completion_call. simpl. by rewrite formatted_history_turns.
Qed.

(** Every worker [send_message] starts carries the message twice: as the
    prompt and as the last turn of its history. *)
Lemma dispatched_history_ends_with_message st :
  starts_dispatch st = true ->
  exists w, worker (send_message st) = Running w
    /\ history w = chat_history st ++ [turn "user" (message w)].
Proof.
  intros Hd. destruct (send_message_dispatch st Hd) as (_ & Hw & _).
  cbn zeta in Hw. eexists. split; [exact Hw|done].
Qed.

(** ** The configuration loader *)

(** C8, as the code has it.  An accent colour stored as a string comes
    back from [load_config] as stored, whether or not it names a colour:
    building a [QColor] from a string does not raise, so the branch that
    restores the default is not taken. *)
Theorem load_config_keeps_accent_string (config_data : gmap string json)
    (s : string)
    (Hstored : config_data !! "accent_color" = Some (JStr s)) :
  load_config (FileObject config_data) !! "accent_color" = Some (JStr s)
  /\ load_config (FileObject config_data) = config_data ∪ DEFAULT_CONFIG.
Proof.
  assert ((config_data ∪ DEFAULT_CONFIG) !! "accent_color" = Some (JStr s))
    as Hm by (by apply lookup_union_Some_l).
  unfold load_config. cbn zeta. by rewrite Hm.
Qed.

(** ** More on the configuration loader *)

Lemma lookup_merged (config_data : gmap string json) k :
  (config_data ∪ DEFAULT_CONFIG) !! k
  = match config_data !! k with
    | Some v => Some v
    | None => DEFAULT_CONFIG !! k
    end.
Proof.
  destruct (config_data !! k) eqn:E;
    [by apply lookup_union_Some_l | by apply lookup_union_r].
Qed.

Lemma default_accent_lookup :
  DEFAULT_CONFIG !! "accent_color" = Some (JStr DEFAULT_ACCENT).
Proof. reflexivity. Qed.

Lemma load_config_keywise (config_data : gmap string json) (k : string)
    (Hk : k <> "accent_color") :
  load_config (FileObject config_data) !! k
  = match config_data !! k with
    | Some v => Some v
    | None => DEFAULT_CONFIG !! k
    end
  /\ load_config (FileObject config_data) !! "accent_color"
     = Some match config_data !! "accent_color" with
            | Some v => if QColor_raises v then JStr DEFAULT_ACCENT else v
            | None => JStr DEFAULT_ACCENT
            end.
Proof.
  unfold load_config. cbn zeta.
  rewrite (lookup_merged config_data "accent_color"), default_accent_lookup.
  destruct (config_data !! "accent_color") as [v|] eqn:Ha.
  - destruct (QColor_raises v) eqn:Hv.
    + rewrite lookup_insert_ne by done. rewrite lookup_insert_eq.
      by rewrite lookup_merged.
    + rewrite !lookup_merged. by rewrite Ha.
  - simpl. rewrite !lookup_merged, Ha. done.
Qed.

(** X1.  How [load_config] fills each key of a parsed file: a key other than
    the accent colour keeps the stored value, whatever its type, and
    takes the default when absent (unknown keys are kept, too); the
    accent colour keeps the stored value unless the colour constructor
    raises on it, and is the default otherwise. *)
Theorem load_config_lookup (config_data : gmap string json) (k : string)
    (Hk : k <> "accent_color") :
  load_config (FileObject config_data) !! k
  = match config_data !! k with
    | Some v => Some v
    | None => DEFAULT_CONFIG !! k
    end
  /\ load_config (FileObject config_data) !! "accent_color"
     = Some match config_data !! "accent_color" with
            | Some v => if QColor_raises v then JStr DEFAULT_ACCENT else v
            | None => JStr DEFAULT_ACCENT
            end.
Proof. exact (load_config_keywise config_data k Hk). Qed.

Lemma load_config_complete (f : config_file) :
  is_Some (load_config f !! "api_key")
  /\ is_Some (load_config f !! "theme")
  /\ exists accent,
       load_config f !! "accent_color" = Some accent
       /\ QColor_raises accent = false.
Proof.
  destruct f as [| |config_data];
    [by repeat split; eauto | by repeat split; eauto |].
  destruct (load_config_keywise config_data "api_key" ltac:(done)) as [-> Hacc].
  destruct (load_config_keywise config_data "theme" ltac:(done)) as [-> _].
  split; [by destruct (config_data !! "api_key")|].
  split; [by destruct (config_data !! "theme")|].
  eexists. split; [exact Hacc|].
  destruct (config_data !! "accent_color") as [v|]; [|done].
  by destruct (QColor_raises v) eqn:Hv.
Qed.

(** X2.  Whatever is on disk, the loaded configuration has the three keys the
    program reads, and its accent colour is a value the colour
    constructor accepts. *)
Theorem load_config_has_keys (f : config_file) :
  is_Some (load_config f !! "api_key")
  /\ is_Some (load_config f !! "theme")
  /\ exists accent,
       load_config f !! "accent_color" = Some accent
       /\ QColor_raises accent = false.
Proof. exact (load_config_complete f). Qed.




(** ** The settings dialog *)

Lemma on_settings_changed_fields f st :
  let st' := on_settings_changed f st in
  config st' = load_config f
  /\ chat_history st' = [] /\ chat_layout st' = []
  /\ worker st' = worker st
  /\ message_input st' = message_input st
  /\ message_input_enabled st' = message_input_enabled st
  /\ send_button_enabled st' = send_button_enabled st.
Proof.
  unfold on_settings_changed. cbn zeta.
  pose proof (core_update_status_based_on_config
                (set_config (load_config f) st)) as Hc.
  unfold core in Hc. simpl in *.
  injection Hc as -> -> -> -> _ _ ->. done.
Qed.



(** X5.  When the write fails, what was entered in the dialog is dropped: the
    window reloads whatever the disk holds, and the conversation is
    cleared all the same. *)
Theorem save_settings_write_failure (d : SettingsDialog)
    (left_on_disk : config_file) (st : ChatWindow) :
  let st' := save_settings d (WriteFailed left_on_disk) st in
  config st' = load_config left_on_disk
  /\ chat_history st' = [] /\ chat_layout st' = []
  /\ (config st = load_config left_on_disk -> config st' = config st).
Proof.
  unfold save_settings. cbn zeta.
  destruct (on_settings_changed_fields
              (save_config (settings_to_config d (config st))
                 (WriteFailed left_on_disk))
              (set_config (settings_to_config d (config st)) st))
    as (Hc & Hh & Hl & _).
  cbn zeta in *. rewrite Hc, Hh, Hl. simpl. by repeat split.
Qed.



(** ** More on the status bar *)

Lemma timers_show_status_message m error duration st :
  timers (show_status_message m error duration st)
  = timers st
    ++ (if (duration =? 0) || has_persistent_marker m then []
        else [(duration, m)]).
Proof.
  unfold show_status_message. case_match; simpl; by rewrite ?app_nil_r.
Qed.

Lemma timers_hide_specific_status_message m st :
  timers (hide_specific_status_message m st) = timers st.
Proof. unfold hide_specific_status_message. by repeat case_match. Qed.

Lemma timers_hide_status_message st :
  timers (hide_status_message st) = timers st.
Proof. unfold hide_status_message. by case_match. Qed.

(** X7.  An expiry is tied to the text it was scheduled for, not to the
    showing: a timer leaves any other text alone, but when the same
    unmarked text is shown twice, both expiries are pending and the older
    one already hides the newer showing. *)
Theorem expiry_matches_by_text (m : string) (error1 error2 : bool)
    (st : ChatWindow)
    (Hm : has_persistent_marker m = false) :
  let st2 := show_status_message m error2 DEFAULT_DURATION
               (show_status_message m error1 DEFAULT_DURATION st) in
  timers st2 = timers st ++ [(DEFAULT_DURATION, m); (DEFAULT_DURATION, m)]
  /\ status_visible st2 = true
  /\ (exists st3,
        step (TimerFired (length (timers st))) st2 = Some st3
        /\ status_visible st3 = false
        /\ timers st3 = timers st ++ [(DEFAULT_DURATION, m)])
  /\ (forall m', m' <> m -> hide_specific_status_message m' st2 = st2).
Proof.
  cbn zeta.
  assert (timers (show_status_message m error2 DEFAULT_DURATION
                    (show_status_message m error1 DEFAULT_DURATION st))
          = timers st ++ [(DEFAULT_DURATION, m); (DEFAULT_DURATION, m)]) as Ht.
  { rewrite !timers_show_status_message, Hm. simpl. by rewrite <- app_assoc. }
  assert (forall st0 e, status_text (show_status_message m e DEFAULT_DURATION st0) = m
            /\ status_visible (show_status_message m e DEFAULT_DURATION st0) = true
            /\ status_isError (show_status_message m e DEFAULT_DURATION st0) = Some e)
    as Hshown.
  { intros st0 e. unfold show_status_message. rewrite Hm. by simpl. }
  destruct (Hshown (show_status_message m error1 DEFAULT_DURATION st) error2)
    as (Htext & Hvis & Herr).
  split; [exact Ht|]. split; [exact Hvis|]. split.
  - unfold step. rewrite Ht.
    rewrite (list_lookup_middle (timers st) _ _ _ eq_refl).
    eexists. split; [reflexivity|].
    rewrite timers_hide_specific_status_message. simpl.
    rewrite delete_middle. split; [|done].
    unfold hide_specific_status_message. simpl.
    rewrite Hvis, Htext, String.eqb_refl. simpl.
    unfold is_persistent_error. by rewrite Hm, andb_false_r.
  - intros m' Hne. unfold hide_specific_status_message.
    rewrite Htext. apply String.eqb_neq in Hne.
    rewrite String.eqb_sym, Hne. by rewrite andb_false_r.
Qed.

(** X8.  What the status bar shows when the window opens: with the library
    missing, the library warning, even if the key is missing too; with
    the library present and no usable key, the key warning; both are
    errors that no expiry and no hide operation clears.  Otherwise the
    bar is hidden.  No expiry is pending. *)
Theorem init_status (f : config_file) :
  let st := init f in
  let lasting :=
    status_visible st = true /\ status_isError st = Some true
    /\ (forall m, hide_specific_status_message m st = st)
    /\ hide_status_message st = st in
  timers st = []
  /\ (GOOGLE_AI_AVAILABLE = false ->
      status_text st = "Warning: google-generativeai not found..." /\ lasting)
  /\ (GOOGLE_AI_AVAILABLE = true ->
      truthy (dict_get (load_config f) "api_key") = false ->
      status_text st = "API Key not set..." /\ lasting)
  /\ (GOOGLE_AI_AVAILABLE = true ->
      truthy (dict_get (load_config f) "api_key") = true ->
      status_visible st = false).
Proof.
  cbn zeta. unfold init, update_status_based_on_config. simpl config.
  destruct GOOGLE_AI_AVAILABLE; simpl negb; cbv iota.
  - destruct (truthy (dict_get (load_config f) "api_key")) eqn:Hkey;
      simpl negb; cbv iota.
    + repeat split; try done.
    + split; [done|]. split; [done|]. split; [|done]. intros _ _.
      pose proof (marked_message_persists "API Key not set..." 0
                    {| config := load_config f; message_input := "";
                       message_input_enabled := true; send_button_enabled := true;
                       chat_layout := []; chat_history := [];
                       status_text := ""; status_isError := None;
                       status_visible := false; timers := [];
                       worker := NoWorker |} eq_refl) as H.
      cbn zeta in H. tauto.
  - split; [done|]. split; [|done]. intros _.
    pose proof (marked_message_persists
                  "Warning: google-generativeai not found..." 0
                  {| config := load_config f; message_input := "";
                     message_input_enabled := true; send_button_enabled := true;
                     chat_layout := []; chat_history := [];
                     status_text := ""; status_isError := None;
                     status_visible := false; timers := [];
                     worker := NoWorker |} eq_refl) as H.
    cbn zeta in H. tauto.
Qed.

Lemma classified_message_cases e :
  classify_exception e = msg_api_error e
  \/ classify_exception e = MSG_INVALID_KEY
  \/ classify_exception e = MSG_QUOTA
  \/ classify_exception e = MSG_TIMEOUT
  \/ classify_exception e = MSG_PERMISSION
  \/ classify_exception e = MSG_MODEL.
Proof. unfold classify_exception. repeat case_match; tauto. Qed.

Lemma handle_error_status e st :
  let st' := handle_error e st in
  status_text st' = e /\ status_visible st' = true
  /\ status_isError st' = Some true
  /\ timers st' = timers st
       ++ (if has_persistent_marker e then [] else [(DEFAULT_DURATION, e)])
  /\ chat_layout st' = chat_layout st.
Proof.
  cbn zeta. unfold handle_error.
  assert (forall st1, chat_layout st1 = chat_layout st ->
            status_text st1 = e -> status_visible st1 = true ->
            status_isError st1 = Some true ->
            let st' := if last_is_user (chat_history st1)
                       then set_chat (chat_layout st1)
                              (removelast (chat_history st1)) st1
                       else st1 in
            status_text st' = e /\ status_visible st' = true
            /\ status_isError st' = Some true /\ timers st' = timers st1
            /\ chat_layout st' = chat_layout st) as Hgen.
  { intros st1 Hl Ht Hv He. cbn zeta. by case_match. }
  pose proof (timers_show_status_message e true DEFAULT_DURATION st) as Htm.
  simpl in Htm.
  destruct (Hgen (show_status_message e true DEFAULT_DURATION st))
    as (H1 & H2 & H3 & H4 & H5).
  - by apply core_layout, core_show_status_message.
  - unfold show_status_message. by case_match.
  - unfold show_status_message. by case_match.
  - unfold show_status_message. by case_match.
  - cbn zeta in *. by rewrite H1, H2, H3, H4, H5, Htm.
Qed.

(** X9.  An exception the worker recognises (invalid key, quota, deadline,
    permission, model) is reported with a fixed text that carries no
    persistence marker: the error is shown and its expiry after the
    default delay is scheduled. *)
Theorem classified_errors_expire (e : string) (st : ChatWindow)
    (Hknown : classify_exception e <> msg_api_error e) :
  let st' := handle_error (classify_exception e) st in
  status_text st' = classify_exception e
  /\ status_visible st' = true
  /\ status_isError st' = Some true
  /\ timers st' = timers st ++ [(DEFAULT_DURATION, classify_exception e)]
  /\ status_visible (hide_specific_status_message (classify_exception e) st')
     = false.
Proof.
  cbn zeta.
  assert (has_persistent_marker (classify_exception e) = false) as Hm.
  { destruct (classified_message_cases e) as [H|[H|[H|[H|[H|H]]]]];
      [done|by rewrite H..]. }
  destruct (handle_error_status (classify_exception e) st)
    as (Ht & Hv & He & Htm & _).
  cbn zeta in *. rewrite Hm in Htm.
  repeat (split; [done|]).
  unfold hide_specific_status_message.
  rewrite Hv, Ht, String.eqb_refl. simpl.
  unfold is_persistent_error. by rewrite Hm, andb_false_r.
Qed.

(** ** The wider invariant *)

Lemma consecutive_role_snoc role h item :
  consecutive_role role (h ++ [item])
  = consecutive_role role h
    || (last_has_role role h && json_is_str (dict_get item "role") role).
Proof.
  induction h as [|a h IH]; [by simpl; rewrite andb_false_r|].
  change ((a :: h) ++ [item]) with (a :: (h ++ [item])).
  cbn [consecutive_role]. rewrite IH. clear IH.
  destruct h as [|b h]; simpl.
  - unfold last_has_role. simpl.
    by rewrite andb_false_r, !orb_false_r.
  - replace (last_has_role role (a :: b :: h))
      with (last_has_role role (b :: h))
      by (unfold last_has_role; by rewrite last_cons_cons).
    by rewrite !orb_assoc.
Qed.

Lemma last_has_role_snoc role h item :
  last_has_role role (h ++ [item]) = json_is_str (dict_get item "role") role.
Proof. unfold last_has_role. by rewrite last_snoc. Qed.

Lemma last_is_user_has_role h : last_is_user h = last_has_role "user" h.
Proof. done. Qed.

Lemma user_last_is_not_model h :
  last_has_role "user" h = true -> last_has_role "model" h = false.
Proof.
  unfold last_has_role. destruct (last h) as [item|]; [|done].
  destruct (dict_get item "role"); simpl; try done.
  intros ->%String.eqb_eq. done.
Qed.

Lemma timers_update_status_based_on_config st :
  timers (update_status_based_on_config st) = timers st.
Proof.
  unfold update_status_based_on_config.
  repeat case_match;
    rewrite ?timers_show_status_message, ?timers_hide_status_message;
    simpl; by rewrite ?app_nil_r.
Qed.

Lemma timers_ok_show_status_message m error st :
  timers_ok (timers st) ->
  timers_ok (timers (show_status_message m error DEFAULT_DURATION st)).
Proof.
  intros Hok. rewrite timers_show_status_message. unfold timers_ok.
  apply Forall_app. split; [done|].
  simpl. destruct (has_persistent_marker m) eqn:Hm; [done|].
  by repeat constructor.
Qed.

(** The window right after a send that starts a worker. *)
Lemma send_message_dispatch_state st :
  starts_dispatch st = true ->
  let user_message := Str.strip (message_input st) in
  send_message st
  = {| config := config st; message_input := "";
       message_input_enabled := false; send_button_enabled := false;
       chat_layout := chat_layout st ++ [(user_message, "user")];
       chat_history := chat_history st ++ [turn "user" user_message];
       status_text := "AI is thinking..."; status_isError := Some false;
       status_visible := true;
       timers := timers st ++ [(DEFAULT_DURATION, "AI is thinking...")];
       worker := Running {| api_key := dict_get (config st) "api_key";
                            message := user_message;
                            history := chat_history st
                                       ++ [turn "user" user_message] |} |}.
Proof.
  unfold starts_dispatch. rewrite !andb_true_iff, negb_true_iff.
  intros [[H1 H2] H3].
  unfold send_message. rewrite H1, H2, H3. done.
Qed.

Lemma session_invariant_frame st st' :
  core st' = core st -> timers_ok (timers st') ->
  session_invariant st -> session_invariant st'.
Proof.
  intros Hc Ht. unfold session_invariant.
  rewrite (core_history _ _ Hc), (core_worker _ _ Hc).
  destruct (core_enabled _ _ Hc) as [-> ->]. tauto.
Qed.

Lemma session_invariant_init f : session_invariant (init f).
Proof.
  unfold init. eapply session_invariant_frame;
    [apply core_update_status_based_on_config | |].
  - rewrite timers_update_status_based_on_config. by constructor.
  - unfold session_invariant. simpl. repeat split; try done; by constructor.
Qed.

Lemma session_invariant_send st :
  send_button_enabled st = true ->
  session_invariant st -> session_invariant (send_message st).
Proof.
  intros Hen Hinv. destruct (starts_dispatch st) eqn:Hd.
  - rewrite (send_message_dispatch_state st Hd). cbn zeta.
    destruct Hinv as (_ & Hidle & Hwf & Hmodel & Htm & _).
    unfold starts_dispatch in Hd.
    rewrite !andb_true_iff, negb_true_iff in Hd. destruct Hd as [[H1 H2] H3].
    unfold session_invariant. simpl.
    split; [done|]. split; [done|]. split.
    { apply Forall_app. split; [done|]. constructor; [|done].
      left. by eexists. }
    split.
    { rewrite consecutive_role_snoc, Hmodel, role_of_turn. simpl.
      by rewrite andb_false_r. }
    split.
    { apply Forall_app. split; [done|]. by repeat constructor. }
    split.
    { unfold dispatched_worker. simpl. repeat split; try done. by eexists. }
    right. by rewrite last_has_role_snoc, role_of_turn.
  - eapply session_invariant_frame; [by apply send_message_no_dispatch| |done].
    destruct Hinv as (_ & _ & _ & _ & Htm & _).
    unfold send_message. repeat case_match; try done;
      by apply timers_ok_show_status_message.
Qed.

Lemma Forall_removelast {A} (P : A -> Prop) (l : list A) :
  Forall P l -> Forall P (removelast l).
Proof.
  destruct l as [|a l] using rev_ind; [done|].
  rewrite removelast_last. by intros [? _]%Forall_app.
Qed.

Lemma consecutive_role_removelast role h :
  consecutive_role role h = false ->
  consecutive_role role (removelast h) = false.
Proof.
  destruct h as [|a h] using rev_ind; [done|].
  rewrite consecutive_role_snoc, removelast_last.
  by intros [? _]%orb_false_elim.
Qed.

Lemma session_invariant_deliver sig w st :
  worker st = Running w -> session_invariant st ->
  session_invariant (set_worker Emitted (deliver sig st)).
Proof.
  intros Hw (Heq & Hidle & Hwf & Hmodel & Htm & Hrun).
  rewrite Hw in Hrun, Hidle. destruct Hrun as [_ Hlast].
  assert (send_button_enabled st = false) as Hoff.
  { destruct (send_button_enabled st); [|done].
    by destruct Hidle as [Hidle _]; specialize (Hidle eq_refl). }
  rewrite Hoff in Heq.
  unfold session_invariant. simpl. destruct sig; simpl.
  - unfold handle_response.
    match goal with
    | |- context [hide_status_message ?s] =>
        pose proof (core_hide_status_message s) as Hc;
        pose proof (timers_hide_status_message s) as Ht
    end.
    destruct (core_enabled _ _ Hc) as [-> ->].
    rewrite (core_history _ _ Hc), Ht. simpl.
    rewrite Heq, Hoff. split; [done|]. split; [done|]. split.
    { apply Forall_app. split; [done|]. constructor; [|done].
      right. by eexists. }
    split; [|done].
    rewrite consecutive_role_snoc, Hmodel. simpl.
    destruct Hlast as [->|Hlast]; [done|].
    by rewrite (user_last_is_not_model _ Hlast).
  - destruct (handle_error_status error_message st) as (_ & _ & _ & Ht & _).
    cbn zeta in Ht. rewrite Ht, handle_error_history.
    assert (message_input_enabled (handle_error error_message st) = false
            /\ send_button_enabled (handle_error error_message st) = false)
      as [-> ->].
    { unfold handle_error.
      destruct (core_enabled _ _
        (core_show_status_message error_message true DEFAULT_DURATION st))
        as [E1 E2].
      destruct (last_is_user _);
        cbn [set_chat message_input_enabled send_button_enabled];
        by rewrite E1, E2, Heq, Hoff. }
    split; [done|]. split; [done|]. split.
    { destruct (last_is_user _); [by apply Forall_removelast | done]. }
    split.
    { destruct (last_is_user _);
        [by apply consecutive_role_removelast | done]. }
    split; [|done].
    apply Forall_app. split; [done|].
    destruct (has_persistent_marker error_message) eqn:Hm; [done|].
    by repeat constructor.
Qed.

Lemma session_invariant_finished st :
  worker st = Emitted -> session_invariant st ->
  session_invariant (set_worker NoWorker (on_worker_finished st)).
Proof.
  intros Hw (_ & _ & Hwf & Hmodel & Htm & _).
  assert (chat_history (on_worker_finished st) = chat_history st
          /\ timers (on_worker_finished st) = timers st
          /\ message_input_enabled (on_worker_finished st) = true
          /\ send_button_enabled (on_worker_finished st) = true)
    as (Hh & Ht & He1 & He2).
  { unfold on_worker_finished. case_match; [|done].
    match goal with
    | |- context [hide_status_message ?s] =>
        pose proof (core_hide_status_message s) as Hc;
        rewrite (timers_hide_status_message s)
    end.
    rewrite (core_history _ _ Hc).
    by destruct (core_enabled _ _ Hc) as [-> ->]. }
  unfold session_invariant. simpl. by rewrite Hh, Ht, He1, He2.
Qed.

Lemma session_invariant_settings f st :
  session_invariant st -> session_invariant (on_settings_changed f st).
Proof.
  intros (Heq & Hidle & _ & _ & Htm & Hrun).
  destruct (on_settings_changed_fields f st)
    as (_ & Hh & _ & Hw & _ & He1 & He2).
  cbn zeta in *. unfold session_invariant.
  rewrite Hh, Hw, He1, He2.
  assert (timers (on_settings_changed f st) = timers st) as ->.
  { unfold on_settings_changed. simpl.
    by rewrite timers_update_status_based_on_config. }
  split; [done|]. split; [done|]. split; [by constructor|].
  split; [done|]. split; [done|].
  destruct (worker st); [done| |done]. destruct Hrun as [Hd _].
  split; [done|by left].
Qed.

Lemma session_invariant_step ev st st' :
  step ev st = Some st' -> session_invariant st -> session_invariant st'.
Proof.
  destruct ev; simpl.
  - case_match; [|done]. by intros [= <-].
  - destruct (send_button_enabled st) eqn:E; [|done]. intros [= <-].
    by apply session_invariant_send.
  - destruct (message_input_enabled st) eqn:E; [|done]. intros [= <-] Hinv.
    apply session_invariant_send; [|done].
    destruct Hinv as (Heq & _). by rewrite <- Heq.
  - destruct (worker st) eqn:Hw; try done. intros [= <-].
    by eapply session_invariant_deliver.
  - destruct (worker st) eqn:Hw; try done. intros [= <-].
    by apply session_invariant_finished.
  - destruct (timers st !! i) as [[d m]|]; [|done]. intros [= <-] Hinv.
    eapply session_invariant_frame; [| |exact Hinv].
    + by rewrite core_hide_specific_status_message.
    + rewrite timers_hide_specific_status_message. simpl.
      apply Forall_delete. by destruct Hinv as (_ & _ & _ & _ & Htm & _).
  - intros [= <-]. apply session_invariant_settings.
Qed.

Lemma reachable_session_invariant st : reachable st -> session_invariant st.
Proof.
  induction 1 as [f|ev st st' _ IH Hstep];
    [apply session_invariant_init | by eapply session_invariant_step].
Qed.

(** ** What holds in every reachable state *)

(** X10.  The two input controls are enabled or disabled together, and they
    are disabled exactly while a worker is pending: no message can be
    submitted during a request, and the window is never left locked once
    the request is over. *)
Theorem reachable_controls (st : ChatWindow) (Hreach : reachable st) :
  message_input_enabled st = send_button_enabled st
  /\ (send_button_enabled st = true <-> worker st = NoWorker).
Proof.
  destruct (reachable_session_invariant st Hreach) as (H1 & H2 & _).
  by split.
Qed.

Lemma consecutive_users_role h : consecutive_users h = consecutive_role "user" h.
Proof. induction h as [|a h IH]; [done|]. simpl. by rewrite IH. Qed.

Lemma well_formed_turn_keyed item :
  well_formed_turn item -> exists role text', item = turn role text'.
Proof. intros [(m & -> & _)|(t & ->)]; eauto. Qed.

Lemma formatted_history_well_formed h :
  Forall well_formed_turn h -> formatted_history h = h.
Proof.
  intros Hwf. apply formatted_history_turns.
  eapply Forall_impl; [exact Hwf|]. apply well_formed_turn_keyed.
Qed.

(** X11.  Every entry of the transcript is a user turn with a non-empty
    message or a model turn, and the roles alternate: no two user turns
    and no two model turns are next to each other.  The filter of the
    worker therefore keeps the whole transcript. *)
Theorem reachable_transcript_alternates (st : ChatWindow)
    (Hreach : reachable st) :
  Forall well_formed_turn (chat_history st)
  /\ consecutive_role "user" (chat_history st) = false
  /\ consecutive_role "model" (chat_history st) = false
  /\ formatted_history (chat_history st) = chat_history st.
Proof.
  destruct (reachable_session_invariant st Hreach)
    as (_ & _ & Hwf & Hmodel & _).
  destruct (reachable_loop_invariant st Hreach) as (Huser & _).
  rewrite consecutive_users_role in Huser.
  repeat split; try done. by apply formatted_history_well_formed.
Qed.

(** X12.  Every pending expiry was scheduled with the default delay for a
    message without persistence marker; a timer that fires never takes a
    marked error off the status bar. *)
Theorem reachable_timers (st : ChatWindow) (Hreach : reachable st) :
  timers_ok (timers st)
  /\ (forall i d m st',
        timers st !! i = Some (d, m) -> step (TimerFired i) st = Some st' ->
        has_persistent_marker (status_text st) = true ->
        status_visible st' = status_visible st
        /\ status_text st' = status_text st).
Proof.
  destruct (reachable_session_invariant st Hreach)
    as (_ & _ & _ & _ & Htm & _).
  split; [done|]. intros i d m st' Hi Hstep Hmark.
  simpl in Hstep. rewrite Hi in Hstep. injection Hstep as <-.
  unfold timers_ok in Htm. rewrite Forall_lookup in Htm.
  destruct (Htm i (d, m) Hi) as [_ Hm]. simpl in Hm.
  unfold hide_specific_status_message. simpl.
  destruct (String.eqb (status_text st) m) eqn:E;
    [|by rewrite andb_false_r].
  apply String.eqb_eq in E. congruence.
Qed.

(** X13.  A worker that is running was given a usable key, a non-empty
    message and a transcript that ends with that very message as a user
    turn.  Its own guards never fire: unless setting up the client
    raises, it makes exactly one call, a chat call seeded with the whole
    transcript it was given. *)
Theorem reachable_worker_dispatch (st : ChatWindow) (w : GeminiWorker)
    (Hreach : reachable st) (Hrun : worker st = Running w) :
  truthy (api_key w) = true
  /\ Str.is_empty (message w) = false
  /\ last (history w) = Some (turn "user" (message w))
  /\ completion_call w
     = chat_send_message (api_key w) (history w) (message w)
  /\ (forall svc, configure svc (api_key w) = None ->
        fst (run svc w)
        = [chat_send_message (api_key w) (history w) (message w)])
  /\ (forall svc e, configure svc (api_key w) = Some e ->
        run svc w = ([], error_occurred (classify_exception e))).
Proof.
  destruct (reachable_session_invariant st Hreach)
    as (_ & _ & _ & _ & _ & Hw).
  rewrite Hrun in Hw.
  destruct Hw as [(Hlib & Hkey & Hmsg & prior & Hhist & Hprior) _].
  assert (completion_call w
          = chat_send_message (api_key w) (history w) (message w)) as Hcall.
  { unfold completion_call.
    rewrite formatted_history_well_formed.
    - rewrite Hhist. by destruct prior.
    - rewrite Hhist. apply Forall_app. split; [done|].
      constructor; [|done]. left. by eexists. }
  split; [done|]. split; [done|].
  split; [by rewrite Hhist, last_snoc|]. split; [done|].
  split; intros svc.
  - intros Hcfg. unfold run. rewrite Hlib, Hkey, Hcfg. simpl. by rewrite Hcall.
  - intros e Hcfg. unfold run. by rewrite Hlib, Hkey, Hcfg.
Qed.

(** ** Whole rounds *)

Lemma starts_dispatch_parts st :
  starts_dispatch st = true ->
  GOOGLE_AI_AVAILABLE = true
  /\ truthy (dict_get (config st) "api_key") = true
  /\ Str.is_empty (Str.strip (message_input st)) = false.
Proof.
  unfold starts_dispatch. rewrite !andb_true_iff, negb_true_iff. tauto.
Qed.

(** X14.  A round that succeeds.  From a window that accepts the send, when
    the service returns a response with direct text [t], the three
    events send, signal and finished leave the transcript and the screen
    longer by the user turn and the model turn, the input cleared and
    enabled again, the status bar hidden and no worker pending. *)
Theorem successful_round (st : ChatWindow) (svc : Service) (r : Response)
    (t : string)
    (Hbtn : send_button_enabled st = true)
    (Hd : starts_dispatch st = true)
    (Hcfg : configure svc (dict_get (config st) "api_key") = None)
    (Hresp : forall call, respond svc call = Returns (Some r))
    (Htext : text r = Some t) :
  exists st',
    run_events [SendClicked; WorkerSignal svc; WorkerFinished] st = Some st'
    /\ chat_history st'
       = chat_history st
         ++ [turn "user" (Str.strip (message_input st)); turn "model" t]
    /\ chat_layout st'
       = chat_layout st
         ++ [(Str.strip (message_input st), "user"); (t, "model")]
    /\ message_input st' = ""
    /\ message_input_enabled st' = true /\ send_button_enabled st' = true
    /\ worker st' = NoWorker
    /\ status_visible st' = false
    /\ config st' = config st.
Proof.
  destruct (starts_dispatch_parts st Hd) as (Hlib & Hkey & Hmsg).
  cbn [run_events step]. rewrite Hbtn.
  rewrite (send_message_dispatch_state st Hd). cbn zeta.
  cbn [worker]. unfold run. cbn [api_key].
  rewrite Hlib, Hkey, Hcfg, Hresp. cbn [negb snd].
  unfold interpret_response. rewrite Htext.
  cbn [deliver]. unfold handle_response, add_message_to_chat,
    hide_status_message, is_persistent_error.
  cbn -[DEFAULT_DURATION Str.strip turn].
  eexists. split; [reflexivity|]. cbn -[DEFAULT_DURATION Str.strip turn].
  by rewrite <- !app_assoc.
Qed.

(** X15.  A round that fails.  When the completion call raises, the same three
    events give the transcript back as it was, but the bubble of the
    message stays on screen; the input is cleared and enabled again, no
    worker is pending, and the status bar shows the classified error. *)
Theorem failed_round (st : ChatWindow) (svc : Service) (e : string)
    (Hbtn : send_button_enabled st = true)
    (Hd : starts_dispatch st = true)
    (Hcfg : configure svc (dict_get (config st) "api_key") = None)
    (Hresp : forall call, respond svc call = Raises e) :
  exists st',
    run_events [SendClicked; WorkerSignal svc; WorkerFinished] st = Some st'
    /\ chat_history st' = chat_history st
    /\ chat_layout st'
       = chat_layout st ++ [(Str.strip (message_input st), "user")]
    /\ message_input st' = ""
    /\ message_input_enabled st' = true /\ send_button_enabled st' = true
    /\ worker st' = NoWorker
    /\ status_text st' = classify_exception e
    /\ status_visible st' = true /\ status_isError st' = Some true.
Proof.
  destruct (starts_dispatch_parts st Hd) as (Hlib & Hkey & Hmsg).
  cbn [run_events step]. rewrite Hbtn.
  rewrite (send_message_dispatch_state st Hd). cbn zeta.
  cbn [worker]. unfold run. cbn [api_key].
  rewrite Hlib, Hkey, Hcfg, Hresp. cbn [negb snd deliver].
  match goal with
  | |- context [handle_error ?m ?s] =>
      destruct (handle_error_status m s) as (Ht & Hv & He & _ & Hl);
      pose proof (handle_error_history m s) as Hh;
      assert (message_input (handle_error m s) = "") as Hin
  end.
  { unfold handle_error, show_status_message.
    by repeat case_match. }
  cbn zeta in *. cbn [chat_history chat_layout] in *.
  rewrite last_is_user_snoc, user_turn_is_user, removelast_last in Hh.
  match goal with
  | |- context [handle_error ?m ?s] => set (failed := handle_error m s) in *
  end.
  unfold on_worker_finished. simpl. rewrite He. simpl.
  eexists. split; [reflexivity|]. simpl.
  by rewrite Hh, Hl, Hin, Ht, Hv, He.
Qed.

Lemma handle_response_layout ai_message st :
  chat_layout (handle_response ai_message st)
  = chat_layout st ++ [(ai_message, "model")].
Proof.
  unfold handle_response.
  by rewrite (core_layout _ _ (core_hide_status_message _)).
Qed.

(** X16.  A settings change during a request.  The reload empties the
    transcript and the screen but does not stop the worker, which still
    holds the old key and the old transcript; its answer then lands in
    the emptied conversation as a lone model turn, and its failure finds
    no user turn to retract. *)
Theorem reply_after_settings_reload (st : ChatWindow) (svc : Service)
    (f : config_file)
    (Hbtn : send_button_enabled st = true)
    (Hd : starts_dispatch st = true) :
  let w := {| api_key := dict_get (config st) "api_key";
              message := Str.strip (message_input st);
              history := chat_history st
                         ++ [turn "user" (Str.strip (message_input st))] |} in
  exists st1 st2,
    run_events [SendClicked; SettingsSaved f] st = Some st1
    /\ worker st1 = Running w
    /\ chat_history st1 = [] /\ chat_layout st1 = []
    /\ config st1 = load_config f
    /\ step (WorkerSignal svc) st1 = Some st2
    /\ match snd (run svc w) with
       | response_received t =>
           chat_history st2 = [turn "model" t]
           /\ chat_layout st2 = [(t, "model")]
       | error_occurred _ => chat_history st2 = [] /\ chat_layout st2 = []
       end.
Proof.
  cbn zeta. cbn [run_events step]. rewrite Hbtn.
  rewrite (send_message_dispatch_state st Hd). cbn zeta.
  match goal with
  | |- context [on_settings_changed f ?s] =>
      destruct (on_settings_changed_fields f s) as (Hc & Hh & Hl & Hw & _);
      set (reloaded := on_settings_changed f s) in *
  end.
  cbn zeta in *. cbn [worker] in Hw.
  exists reloaded. eexists. split; [reflexivity|].
  split; [exact Hw|]. split; [exact Hh|]. split; [exact Hl|].
  split; [exact Hc|]. rewrite Hw. split; [reflexivity|].
  destruct (snd (run svc _)) as [t|e]; cbn [deliver set_worker chat_history
    chat_layout].
  - by rewrite handle_response_history, handle_response_layout, Hh, Hl.
  - destruct (handle_error_status e reloaded) as (_ & _ & _ & _ & Hl').
    cbn zeta in Hl'. rewrite handle_error_history, Hl', Hh, Hl. done.
Qed.

(** X17.  An item of the history that lacks the role or the parts has no
    effect on the call the worker makes; a history made only of such
    items is sent as a single-turn call. *)
Theorem malformed_items_are_dropped (key : json) (m : string)
    (before after : list (gmap string json)) (item : gmap string json)
    (Hbad : ~ (is_Some (item !! "role") /\ is_Some (item !! "parts"))) :
  completion_call {| api_key := key; message := m;
                     history := before ++ item :: after |}
  = completion_call {| api_key := key; message := m;
                       history := before ++ after |}
  /\ completion_call {| api_key := key; message := m; history := [item] |}
     = generate_content key m.
Proof.
  unfold completion_call, formatted_history. simpl. split.
  - by rewrite !filter_app, filter_cons_False.
  - by rewrite filter_cons_False.
Qed.

(** X18.  With a key configured but the library missing, a non-blank message
    is refused: transcript, screen and worker stay as they were, and the
    error "Error: Google AI library not installed." is shown with an
    expiry after the default delay, which hides it. *)
Theorem send_without_library (st : ChatWindow)
    (Hlib : GOOGLE_AI_AVAILABLE = false)
    (Hkey : truthy (dict_get (config st) "api_key") = true)
    (Hmsg : Str.all_space (message_input st) = false) :
  let st' := send_message st in
  chat_history st' = chat_history st
  /\ chat_layout st' = chat_layout st
  /\ worker st' = worker st
  /\ status_text st' = "Error: Google AI library not installed."
  /\ status_visible st' = true /\ status_isError st' = Some true
  /\ timers st'
     = timers st
       ++ [(DEFAULT_DURATION, "Error: Google AI library not installed.")]
  /\ status_visible
       (hide_specific_status_message
          "Error: Google AI library not installed." st') = false.
Proof.
  assert (starts_dispatch st = false) as Hno.
  { unfold starts_dispatch. by rewrite Hlib, andb_false_r. }
  pose proof (send_message_no_dispatch st Hno) as Hcore.
  cbn zeta.
  split; [by apply core_history|].
  split; [by apply core_layout|].
  split; [by apply core_worker|].
  unfold send_message. rewrite strip_empty_iff, Hmsg, Hkey, Hlib.
  cbn [negb]. cbv iota.
  pose proof (unmarked_message_expires
                "Error: Google AI library not installed." true
                DEFAULT_DURATION st eq_refl ltac:(done)) as (Ht & Hv & Hhide).
  cbn zeta in *. by rewrite Ht, Hv, Hhide.
Qed.

End Program.

(** * The program at concrete inputs

    Below, the library is taken as present unless said otherwise, and
    [QColor] as rejecting every value that is not a string. *)

Ltac evaluate := vm_compute; reflexivity.

(** C1.  The first message of a conversation, "hello" with an empty
    transcript, is not sent as a single-turn call: the worker receives
    the transcript after the user turn was appended, so it opens a chat
    seeded with that very turn and then sends the message again. *)
Theorem first_message_is_sent_multi_turn :
  let st := set_input "hello" (init true (fun _ => true) (key_file "k")) in
  chat_history st = []
  /\ exists w,
       worker (send_message true st) = Running w
       /\ history w = [turn "user" "hello"]
       /\ completion_call w
          = chat_send_message (JStr "k") [turn "user" "hello"] "hello"
       /\ fst (run true (answering_service "hi") w)
          = [chat_send_message (JStr "k") [turn "user" "hello"] "hello"]
       /\ completion_call w <> generate_content (JStr "k") "hello".
Proof.
  cbn zeta. split; [evaluate|].
  exists {| api_key := JStr "k"; message := "hello";
            history := [turn "user" "hello"] |}.
  split; [evaluate|]. split; [evaluate|]. split; [evaluate|].
  split; [evaluate|]. vm_compute. discriminate.
Qed.

(** C9.  With the library missing and a key configured, sending "hi"
    replaces the persistent start-up warning by "Error: Google AI library
    not installed.", schedules its expiry after 5000 ms, and the expiry
    hides the status bar although the library is still missing. *)
Theorem library_missing_notification_expires :
  let st0 := init false (fun _ => true) (key_file "k") in
  let st := send_message false (set_input "hi" st0) in
  status_text st0 = "Warning: google-generativeai not found..."
  /\ status_visible st0 = true /\ timers st0 = []
  /\ status_text st = "Error: Google AI library not installed."
  /\ status_isError st = Some true
  /\ status_visible st = true
  /\ timers st = [(5000, "Error: Google AI library not installed.")]
  /\ (status_visible <$> step false (fun _ => true) (TimerFired 0) st)
     = Some false.
Proof.
  cbn zeta. repeat (split; [evaluate|]). evaluate.
Qed.

(** C6 as worded fails on a response that has no direct text, one
    candidate part without text, and the block reason SAFETY: the worded
    order reports the block, the worker reports parts without text. *)
Lemma blocked_textless_response_not_reported_blocked :
  interpret_response_spec (Some blocked_textless_response)
  = error_occurred (msg_blocked "SAFETY")
  /\ interpret_response (Some blocked_textless_response)
     = error_occurred MSG_NO_TEXT
  /\ interpret_response (Some blocked_textless_response)
     <> interpret_response_spec (Some blocked_textless_response).
Proof.
  split; [evaluate|]. split; [evaluate|]. vm_compute. discriminate.
Qed.

(** The guard on the controls is what keeps user turns apart: calling
    [send_message] twice in a row, which the disabled controls rule out,
    leaves two user turns next to each other. *)
Example unguarded_double_send :
  let st := set_input "a" (init true (fun _ => true) (key_file "k")) in
  consecutive_users
    (chat_history (send_message true (set_input "b" (send_message true st))))
  = true.
Proof. evaluate. Qed.

(** The string operations on a few inputs. *)
Example strip_samples :
  Str.strip "  a b  " = "a b" /\ Str.strip "   " = ""
  /\ Str.contains "quota" (Str.lower "Quota Exceeded") = true
  /\ Str.contains "models/" "NotFound: model" = false
  /\ Str.lower "AbC-Z@[" = "abc-z@[".
Proof. repeat (split; [evaluate|]). evaluate. Qed.

(** Persistence follows the text of the message, not the kind of the
    failure: an error of the service that happens to quote one of the two
    markers gets no expiry timer. *)
Example unknown_error_with_marker_is_persistent :
  let st := handle_error "API Error: API Key not set by server"
              (init true (fun _ => true) (key_file "k")) in
  status_visible st = true /\ timers st = [].
Proof. split; evaluate. Qed.

(** Saving a key in the settings does not take the missing-key warning
    off the status bar: [hide_status_message] keeps a persistent error,
    and the warning stays until the next message replaces it. *)
Example credential_warning_survives_settings_change :
  let st := init true (fun _ => true) (key_file "") in
  let st' := on_settings_changed true (fun _ => true) (key_file "k") st in
  status_text st = "API Key not set..." /\ status_visible st = true
  /\ truthy (dict_get (config st') "api_key") = true
  /\ status_text st' = "API Key not set..." /\ status_visible st' = true.
Proof. repeat (split; [evaluate|]). evaluate. Qed.

(** The classification on exception texts of each kind.  The quota and
    permission tests ignore letter case, the deadline test does not, and
    the model test needs both of its markers. *)
Example classification_samples :
  let emitted e :=
    snd (run true (failing_service e)
           {| api_key := JStr "k"; message := "hello"; history := [] |}) in
  emitted "400 API key not valid. Please pass a valid API key."
  = error_occurred "API Error: Invalid API Key. Please check it in Settings."
  /\ emitted "reason: API_KEY_INVALID"
     = error_occurred "API Error: Invalid API Key. Please check it in Settings."
  /\ emitted "429 Quota exceeded for requests"
     = error_occurred
         "API Error: Quota exceeded. Please check your Google AI usage limits."
  /\ emitted "429 RESOURCE_EXHAUSTED"
     = error_occurred
         "API Error: Quota exceeded. Please check your Google AI usage limits."
  /\ emitted "504 Deadline Exceeded"
     = error_occurred "API Error: Request timed out. Please try again."
  /\ emitted "504 deadline exceeded"
     = error_occurred "API Error: 504 deadline exceeded"
  /\ emitted "403 PERMISSION DENIED"
     = error_occurred "API Error: Permission denied. Check API key permissions."
  /\ emitted "PermissionDenied: 403"
     = error_occurred "API Error: Permission denied. Check API key permissions."
  /\ emitted "404 NotFound: models/gemini-x is not found"
     = error_occurred "API Error: Model not found. Check the model name."
  /\ emitted "404 NotFound" = error_occurred "API Error: 404 NotFound"
  /\ emitted "Deadline Exceeded after quota check"
     = error_occurred
         "API Error: Quota exceeded. Please check your Google AI usage limits."
  /\ emitted "boom" = error_occurred "API Error: boom".
Proof. cbn zeta. repeat (split; [evaluate|]). evaluate. Qed.

(** ** Instances of the theorems *)

Lemma send_without_credential_witness :
  let st := set_input "hello"
              (init true (fun _ => true) (FileObject DEFAULT_CONFIG)) in
  truthy (dict_get (config st) "api_key") = false
  /\ chat_history (send_message true st) = []
  /\ worker (send_message true st) = NoWorker
  /\ status_text (send_message true st) = "Error: API Key not set..."
  /\ timers (send_message true st) = [].
Proof.
  cbn zeta.
  assert (truthy (dict_get (config (set_input "hello"
            (init true (fun _ => true) (FileObject DEFAULT_CONFIG))))
            "api_key") = false) as Hkey by evaluate.
  split; [exact Hkey|].
  destruct (send_without_credential true _ Hkey) as (Hh & _ & Hw & Hshown & _).
  assert (Str.all_space (message_input (set_input "hello"
            (init true (fun _ => true) (FileObject DEFAULT_CONFIG)))) = false)
    as Hmsg by evaluate.
  destruct (Hshown Hmsg) as (Ht & _ & _ & Htm & _).
  split; [rewrite Hh; evaluate|].
  split; [rewrite Hw; evaluate|].
  split; [exact Ht|]. rewrite Htm. evaluate.
Defined.

Lemma failed_dispatch_retracts_user_turn_witness :
  let st := set_input " more "
              (set_chat [] [turn "user" "hello"; turn "model" "hi"]
                 (init true (fun _ => true) (key_file "k"))) in
  starts_dispatch true st = true
  /\ chat_history (send_message true st)
     = [turn "user" "hello"; turn "model" "hi"; turn "user" "more"]
  /\ chat_history (handle_error "API Error: boom" (send_message true st))
     = [turn "user" "hello"; turn "model" "hi"].
Proof.
  cbn zeta.
  assert (starts_dispatch true
            (set_input " more "
               (set_chat [] [turn "user" "hello"; turn "model" "hi"]
                  (init true (fun _ => true) (key_file "k")))) = true)
    as Hd by evaluate.
  split; [exact Hd|].
  destruct (failed_dispatch_retracts_user_turn true "API Error: boom" _ Hd)
    as (Hsent & Hpop & _).
  split; [rewrite Hsent; evaluate|].
  rewrite (Hpop _ eq_refl). evaluate.
Defined.

Lemma reachable_no_consecutive_users_witness :
  exists st,
    run_events true (fun _ => true)
      [EditInput "hello"; ReturnPressed; SettingsSaved (key_file "k2");
       WorkerSignal (answering_service "hi"); WorkerFinished;
       EditInput "again"; SendClicked;
       WorkerSignal (failing_service "quota"); WorkerFinished;
       EditInput "once more"; SendClicked]
      (init true (fun _ => true) (key_file "k")) = Some st
    /\ reachable true (fun _ => true) st
    /\ length (chat_history st) = 2
    /\ consecutive_users (chat_history st) = false.
Proof.
  destruct (run_events true (fun _ => true)
      [EditInput "hello"; ReturnPressed; SettingsSaved (key_file "k2");
       WorkerSignal (answering_service "hi"); WorkerFinished;
       EditInput "again"; SendClicked;
       WorkerSignal (failing_service "quota"); WorkerFinished;
       EditInput "once more"; SendClicked]
      (init true (fun _ => true) (key_file "k"))) as [st|] eqn:Hrun;
    [|vm_compute in Hrun; discriminate].
  exists st. split; [reflexivity|].
  assert (reachable true (fun _ => true) st) as Hr.
  { eapply run_events_reachable; [apply reachable_init | exact Hrun]. }
  split; [exact Hr|]. split.
  - vm_compute in Hrun. injection Hrun as <-. evaluate.
  - exact (proj1 (reachable_no_consecutive_users true (fun _ => true) st Hr)).
Defined.

Lemma successful_dispatch_appends_model_turn_witness :
  let st := set_input "hello" (init true (fun _ => true) (key_file "k")) in
  starts_dispatch true st = true
  /\ chat_history (deliver (response_received "hi") (send_message true st))
     = [turn "user" "hello"; turn "model" "hi"].
Proof.
  cbn zeta.
  assert (starts_dispatch true
            (set_input "hello" (init true (fun _ => true) (key_file "k")))
          = true) as Hd by evaluate.
  split; [exact Hd|].
  destruct (successful_dispatch_appends_model_turn true "hi"
              (set_input "hello" (init true (fun _ => true) (key_file "k"))))
    as (_ & _ & _ & Hsent).
  rewrite (Hsent Hd). evaluate.
Defined.

Lemma interpret_response_order_witness :
  parts_without_text blocked_textless_response = true
  /\ interpret_response (Some blocked_textless_response)
     = error_occurred MSG_NO_TEXT.
Proof.
  assert (parts_without_text blocked_textless_response = true) as Hp
    by evaluate.
  split; [exact Hp|].
  exact (proj1 (proj2 (interpret_response_order blocked_textless_response)) Hp).
Defined.

Lemma exception_classification_witness :
  let e := "400 API key not valid; quota exceeded" in
  let w := {| api_key := JStr "k"; message := "hello"; history := [] |} in
  truthy (api_key w) = true
  /\ respond (failing_service e) (completion_call w) = Raises e
  /\ Str.contains "API key not valid" e = true
  /\ Str.contains "quota" (Str.lower e) = true
  /\ snd (run true (failing_service e) w)
     = error_occurred
         "API Error: Invalid API Key. Please check it in Settings.".
Proof.
  cbn zeta.
  assert (truthy (api_key {| api_key := JStr "k"; message := "hello";
                             history := [] |}) = true) as Hkey by evaluate.
  assert (respond (failing_service "400 API key not valid; quota exceeded")
            (completion_call {| api_key := JStr "k"; message := "hello";
                                history := [] |})
          = Raises "400 API key not valid; quota exceeded") as Hraise
    by evaluate.
  split; [exact Hkey|]. split; [exact Hraise|]. split; [evaluate|].
  split; [evaluate|].
  rewrite (exception_classification true
             (failing_service "400 API key not valid; quota exceeded")
             {| api_key := JStr "k"; message := "hello"; history := [] |}
             "400 API key not valid; quota exceeded"
             eq_refl Hkey (or_intror (conj eq_refl Hraise))).
  evaluate.
Defined.

Lemma load_config_keeps_accent_string_witness :
  let config_data : gmap string json :=
    <["api_key" := JStr "k"]>
      (<["theme" := JStr "dark"]>
        (<["accent_color" := JStr "notacolor"]> ∅)) in
  config_data !! "accent_color" = Some (JStr "notacolor")
  /\ load_config (fun _ => true) (FileObject config_data) !! "accent_color"
     = Some (JStr "notacolor")
  /\ JStr "notacolor" <> JStr DEFAULT_ACCENT.
Proof.
  cbn zeta.
  assert ((<["api_key" := JStr "k"]>
             (<["theme" := JStr "dark"]>
                (<["accent_color" := JStr "notacolor"]> ∅)) : gmap string json)
          !! "accent_color" = Some (JStr "notacolor")) as Hstored by evaluate.
  split; [exact Hstored|]. split; [|discriminate].
  exact (proj1 (load_config_keeps_accent_string (fun _ => true) _ "notacolor"
                  Hstored)).
Defined.

Lemma blank_input_is_ignored_witness :
  let st := set_input "   " (init true (fun _ => true) (key_file "k")) in
  Str.all_space (message_input st) = true
  /\ send_message true st = st.
Proof.
  cbn zeta.
  assert (Str.all_space (message_input
            (set_input "   " (init true (fun _ => true) (key_file "k"))))
          = true) as Hblank by evaluate.
  split; [exact Hblank|].
  exact (blank_input_is_ignored true _ Hblank).
Defined.

(** ** Instances of the further theorems *)

Lemma load_config_lookup_witness :
  let config_data : gmap string json :=
    <["theme" := JStr "blue"]> (<["font" := JNum 12]> ∅) in
  "theme" <> "accent_color"
  /\ load_config (fun _ => true) (FileObject config_data) !! "theme"
     = Some (JStr "blue")
  /\ load_config (fun _ => true) (FileObject config_data) !! "accent_color"
     = Some (JStr DEFAULT_ACCENT).
Proof.
  cbn zeta.
  assert ("theme" <> "accent_color") as Hk by discriminate.
  split; [exact Hk|].
  destruct (load_config_lookup (fun _ => true)
              (<["theme" := JStr "blue"]> (<["font" := JNum 12]> ∅))
              "theme" Hk) as [Htheme Haccent].
  split; [rewrite Htheme | rewrite Haccent]; evaluate.
Defined.


Lemma save_settings_write_failure_witness :
  let d := {| api_key_input := "k2"; dark_radio := true;
              selected_color := JStr "#ff0000" |} in
  let st := init true (fun _ => true) (key_file "k") in
  config st = load_config (fun _ => true) (key_file "k")
  /\ config (save_settings true (fun _ => true) d
               (WriteFailed (key_file "k")) st) = config st.
Proof.
  cbn zeta.
  assert (config (init true (fun _ => true) (key_file "k"))
          = load_config (fun _ => true) (key_file "k")) as Hsync by evaluate.
  split; [exact Hsync|].
  destruct (save_settings_write_failure true (fun _ => true)
              {| api_key_input := "k2"; dark_radio := true;
                 selected_color := JStr "#ff0000" |}
              (key_file "k") (init true (fun _ => true) (key_file "k")))
    as (_ & _ & _ & Hkeep).
  exact (Hkeep Hsync).
Defined.


Lemma expiry_matches_by_text_witness :
  let st := init true (fun _ => true) (key_file "k") in
  has_persistent_marker "AI is thinking..." = false
  /\ timers (show_status_message "AI is thinking..." false DEFAULT_DURATION
               (show_status_message "AI is thinking..." false
                  DEFAULT_DURATION st))
     = [(DEFAULT_DURATION, "AI is thinking...");
        (DEFAULT_DURATION, "AI is thinking...")].
Proof.
  cbn zeta.
  assert (has_persistent_marker "AI is thinking..." = false) as Hm
    by evaluate.
  split; [exact Hm|].
  destruct (expiry_matches_by_text true (fun _ => true) "AI is thinking..."
              false false (init true (fun _ => true) (key_file "k")) Hm)
    as (Htimers & _).
  rewrite Htimers. evaluate.
Defined.

Lemma init_status_witness :
  truthy (dict_get (load_config (fun _ => true) (key_file "")) "api_key")
  = false
  /\ status_text (init true (fun _ => true) (key_file ""))
     = "API Key not set..."
  /\ status_visible (init true (fun _ => true) (key_file "")) = true.
Proof.
  assert (truthy (dict_get (load_config (fun _ => true) (key_file ""))
                    "api_key") = false) as Hkey by evaluate.
  split; [exact Hkey|].
  destruct (init_status true (fun _ => true) (key_file ""))
    as (_ & _ & Hwarn & _).
  destruct (Hwarn eq_refl Hkey) as (Htext & Hvis & _).
  split; [exact Htext | exact Hvis].
Defined.

Lemma classified_errors_expire_witness :
  let st := init true (fun _ => true) (key_file "k") in
  classify_exception "429 RESOURCE_EXHAUSTED"
  <> msg_api_error "429 RESOURCE_EXHAUSTED"
  /\ timers (handle_error (classify_exception "429 RESOURCE_EXHAUSTED") st)
     = [(DEFAULT_DURATION, MSG_QUOTA)].
Proof.
  cbn zeta.
  assert (classify_exception "429 RESOURCE_EXHAUSTED"
          <> msg_api_error "429 RESOURCE_EXHAUSTED") as Hknown
    by (vm_compute; discriminate).
  split; [exact Hknown|].
  destruct (classified_errors_expire "429 RESOURCE_EXHAUSTED"
              (init true (fun _ => true) (key_file "k")) Hknown)
    as (_ & _ & _ & Htimers & _).
  rewrite Htimers. evaluate.
Defined.

Lemma reachable_controls_witness :
  exists st,
    run_events true (fun _ => true) [EditInput "hello"; SendClicked]
      (init true (fun _ => true) (key_file "k")) = Some st
    /\ reachable true (fun _ => true) st
    /\ send_button_enabled st = false
    /\ message_input_enabled st = send_button_enabled st.
Proof.
  destruct (run_events true (fun _ => true) [EditInput "hello"; SendClicked]
              (init true (fun _ => true) (key_file "k"))) as [st|] eqn:Hrun;
    [|vm_compute in Hrun; discriminate].
  exists st. split; [reflexivity|].
  assert (reachable true (fun _ => true) st) as Hr.
  { eapply run_events_reachable; [apply reachable_init | exact Hrun]. }
  split; [exact Hr|]. split.
  - vm_compute in Hrun. injection Hrun as <-. evaluate.
  - exact (proj1 (reachable_controls true (fun _ => true) st Hr)).
Defined.

Lemma reachable_transcript_alternates_witness :
  exists st,
    run_events true (fun _ => true)
      [EditInput "hello"; SendClicked; WorkerSignal (answering_service "hi");
       WorkerFinished; EditInput "again"; ReturnPressed]
      (init true (fun _ => true) (key_file "k")) = Some st
    /\ reachable true (fun _ => true) st
    /\ length (chat_history st) = 3
    /\ consecutive_role "model" (chat_history st) = false
    /\ formatted_history (chat_history st) = chat_history st.
Proof.
  destruct (run_events true (fun _ => true)
      [EditInput "hello"; SendClicked; WorkerSignal (answering_service "hi");
       WorkerFinished; EditInput "again"; ReturnPressed]
      (init true (fun _ => true) (key_file "k"))) as [st|] eqn:Hrun;
    [|vm_compute in Hrun; discriminate].
  exists st. split; [reflexivity|].
  assert (reachable true (fun _ => true) st) as Hr.
  { eapply run_events_reachable; [apply reachable_init | exact Hrun]. }
  split; [exact Hr|]. split.
  - vm_compute in Hrun. injection Hrun as <-. evaluate.
  - destruct (reachable_transcript_alternates true (fun _ => true) st Hr)
      as (_ & _ & Hmodel & Hkeep).
    split; [exact Hmodel | exact Hkeep].
Defined.

Lemma reachable_timers_witness :
  exists st,
    run_events true (fun _ => true)
      [EditInput "hello"; SendClicked; WorkerSignal (failing_service "quota")]
      (init true (fun _ => true) (key_file "k")) = Some st
    /\ reachable true (fun _ => true) st
    /\ length (timers st) = 2
    /\ timers_ok (timers st).
Proof.
  destruct (run_events true (fun _ => true)
      [EditInput "hello"; SendClicked; WorkerSignal (failing_service "quota")]
      (init true (fun _ => true) (key_file "k"))) as [st|] eqn:Hrun;
    [|vm_compute in Hrun; discriminate].
  exists st. split; [reflexivity|].
  assert (reachable true (fun _ => true) st) as Hr.
  { eapply run_events_reachable; [apply reachable_init | exact Hrun]. }
  split; [exact Hr|]. split.
  - vm_compute in Hrun. injection Hrun as <-. evaluate.
  - exact (proj1 (reachable_timers true (fun _ => true) st Hr)).
Defined.

Lemma reachable_worker_dispatch_witness :
  exists st w,
    run_events true (fun _ => true) [EditInput "hello"; SendClicked]
      (init true (fun _ => true) (key_file "k")) = Some st
    /\ reachable true (fun _ => true) st
    /\ worker st = Running w
    /\ completion_call w
       = chat_send_message (api_key w) (history w) (message w).
Proof.
  destruct (run_events true (fun _ => true) [EditInput "hello"; SendClicked]
              (init true (fun _ => true) (key_file "k"))) as [st|] eqn:Hrun;
    [|vm_compute in Hrun; discriminate].
  assert (reachable true (fun _ => true) st) as Hr.
  { eapply run_events_reachable; [apply reachable_init | exact Hrun]. }
  assert (worker st
          = Running {| api_key := JStr "k"; message := "hello";
                       history := [turn "user" "hello"] |}) as Hw.
  { vm_compute in Hrun. injection Hrun as <-. evaluate. }
  exists st. eexists. split; [reflexivity|]. split; [exact Hr|].
  split; [exact Hw|].
  destruct (reachable_worker_dispatch true (fun _ => true) st _ Hr Hw)
    as (_ & _ & _ & Hcall & _).
  exact Hcall.
Defined.

Lemma successful_round_witness :
  let st := set_input "hello" (init true (fun _ => true) (key_file "k")) in
  send_button_enabled st = true
  /\ starts_dispatch true st = true
  /\ exists st',
       run_events true (fun _ => true)
         [SendClicked; WorkerSignal (answering_service "hi"); WorkerFinished]
         st = Some st'
       /\ chat_history st' = [turn "user" "hello"; turn "model" "hi"]
       /\ status_visible st' = false.
Proof.
  cbn zeta.
  assert (send_button_enabled
            (set_input "hello" (init true (fun _ => true) (key_file "k")))
          = true) as Hbtn by evaluate.
  assert (starts_dispatch true
            (set_input "hello" (init true (fun _ => true) (key_file "k")))
          = true) as Hd by evaluate.
  split; [exact Hbtn|]. split; [exact Hd|].
  destruct (successful_round true (fun _ => true) _
              (answering_service "hi")
              {| text := Some "hi"; candidates := []; block_reason := None |}
              "hi" Hbtn Hd eq_refl (fun _ => eq_refl) eq_refl)
    as (st' & Hrun & Hh & _ & _ & _ & _ & _ & Hvis & _).
  exists st'. split; [exact Hrun|]. split; [|exact Hvis].
  rewrite Hh. evaluate.
Defined.

Lemma failed_round_witness :
  let st := set_input "hello" (init true (fun _ => true) (key_file "k")) in
  send_button_enabled st = true
  /\ starts_dispatch true st = true
  /\ exists st',
       run_events true (fun _ => true)
         [SendClicked; WorkerSignal (failing_service "quota"); WorkerFinished]
         st = Some st'
       /\ chat_history st' = []
       /\ chat_layout st' = [("hello", "user")]
       /\ status_text st' = MSG_QUOTA.
Proof.
  cbn zeta.
  assert (send_button_enabled
            (set_input "hello" (init true (fun _ => true) (key_file "k")))
          = true) as Hbtn by evaluate.
  assert (starts_dispatch true
            (set_input "hello" (init true (fun _ => true) (key_file "k")))
          = true) as Hd by evaluate.
  split; [exact Hbtn|]. split; [exact Hd|].
  destruct (failed_round true (fun _ => true) _
              (failing_service "quota") "quota" Hbtn Hd eq_refl
              (fun _ => eq_refl))
    as (st' & Hrun & Hh & Hl & _ & _ & _ & _ & Ht & _).
  exists st'. split; [exact Hrun|].
  split; [rewrite Hh; evaluate|]. split; [rewrite Hl; evaluate|].
  rewrite Ht. evaluate.
Defined.

Lemma reply_after_settings_reload_witness :
  let st := set_input "hello" (init true (fun _ => true) (key_file "k")) in
  send_button_enabled st = true
  /\ starts_dispatch true st = true
  /\ exists st1 st2,
       run_events true (fun _ => true)
         [SendClicked; SettingsSaved (key_file "k2")] st = Some st1
       /\ step true (fun _ => true) (WorkerSignal (answering_service "hi")) st1
          = Some st2
       /\ chat_history st2 = [turn "model" "hi"].
Proof.
  cbn zeta.
  assert (send_button_enabled
            (set_input "hello" (init true (fun _ => true) (key_file "k")))
          = true) as Hbtn by evaluate.
  assert (starts_dispatch true
            (set_input "hello" (init true (fun _ => true) (key_file "k")))
          = true) as Hd by evaluate.
  split; [exact Hbtn|]. split; [exact Hd|].
  destruct (reply_after_settings_reload true (fun _ => true) _
              (answering_service "hi") (key_file "k2") Hbtn Hd)
    as (st1 & st2 & Hrun & _ & _ & _ & _ & Hstep & Hreply).
  exists st1, st2. split; [exact Hrun|]. split; [exact Hstep|].
  assert (snd (run true (answering_service "hi")
                 {| api_key := dict_get (config (set_input "hello"
                      (init true (fun _ => true) (key_file "k")))) "api_key";
                    message := Str.strip (message_input (set_input "hello"
                      (init true (fun _ => true) (key_file "k"))));
                    history := chat_history (set_input "hello"
                      (init true (fun _ => true) (key_file "k")))
                      ++ [turn "user" (Str.strip (message_input
                           (set_input "hello"
                              (init true (fun _ => true) (key_file "k")))))] |})
          = response_received "hi") as Hsig by evaluate.
  rewrite Hsig in Hreply. exact (proj1 Hreply).
Defined.

Lemma malformed_items_are_dropped_witness :
  let item : gmap string json := <["role" := JStr "user"]> ∅ in
  ~ (is_Some (item !! "role") /\ is_Some (item !! "parts"))
  /\ completion_call {| api_key := JStr "k"; message := "hello";
                        history := [item] |}
     = generate_content (JStr "k") "hello".
Proof.
  cbn zeta.
  assert (~ (is_Some ((<["role" := JStr "user"]> ∅ : gmap string json)
                      !! "role")
             /\ is_Some ((<["role" := JStr "user"]> ∅ : gmap string json)
                         !! "parts"))) as Hbad.
  { intros [_ [x Hx]]. vm_compute in Hx. discriminate. }
  split; [exact Hbad|].
  exact (proj2 (malformed_items_are_dropped (JStr "k") "hello" [] []
                  _ Hbad)).
Defined.

Lemma send_without_library_witness :
  let st := set_input "hi" (init false (fun _ => true) (key_file "k")) in
  truthy (dict_get (config st) "api_key") = true
  /\ Str.all_space (message_input st) = false
  /\ chat_history (send_message false st) = []
  /\ timers (send_message false st)
     = [(DEFAULT_DURATION, "Error: Google AI library not installed.")].
Proof.
  cbn zeta.
  assert (truthy (dict_get (config (set_input "hi"
            (init false (fun _ => true) (key_file "k")))) "api_key") = true)
    as Hkey by evaluate.
  assert (Str.all_space (message_input (set_input "hi"
            (init false (fun _ => true) (key_file "k")))) = false)
    as Hmsg by evaluate.
  split; [exact Hkey|]. split; [exact Hmsg|].
  destruct (send_without_library false _ eq_refl Hkey Hmsg)
    as (Hh & _ & _ & _ & _ & _ & Htimers & _).
  split; [rewrite Hh | rewrite Htimers]; evaluate.
Defined.
